(** * Work Session Manager: the timer state machine and its persistence

    A shallow embedding of [timerManager.ts] (class [TimerManager]),
    [stateManager.ts] (class [StateManager]) and the types of [types.ts],
    followed by the properties of the timer engine and of the persistence
    gateway that the specification states.

    Conventions of the embedding.
    - A JavaScript [number] is an integer or [NaN] ([JsNum]); the data model
      has integer seconds, minutes and millisecond time values only, all of
      them far below 2^53, where the arithmetic of doubles is exact. The
      settings of the configuration alone may be fractions or infinite
      ([SettingValue]); the validators make integers of them.
    - A [Date] is its time value in milliseconds ([NaN] is Invalid Date);
      [new Date()] and [Date.now()] read the clock, which every operation
      that needs it receives as the argument [now]: one call sees one
      instant.
    - [Date.parse] belongs to the host; the persistence functions take it
      as the parameter [Date_parse].
    - The constructor is given its two durations; its default arguments,
      25 and 5, are the engine [timer25] of the examples.
    - The [EventEmitter] is a log of what was emitted, in order; listeners
      are observers and do not call back into the engine.
    - [setInterval]/[clearInterval] are the flag [intervalId]: [true] while a
      tick callback is scheduled. *)

From Stdlib Require Import ZArith List String Bool Lia.
From Stdlib Require Import Ascii DecimalString DecimalZ DecimalPos.
From Stdlib Require Import QArith Qround.
Import ListNotations.
Local Open Scope string_scope.
Local Open Scope list_scope.
Local Open Scope Z_scope.

(** ** JavaScript numbers *)

Inductive JsNum : Type :=
| Num (z : Z)
| NaN.

Definition jsub (a b : JsNum) : JsNum :=
  match a, b with Num x, Num y => Num (x - y) | _, _ => NaN end.

Definition jmul (a b : JsNum) : JsNum :=
  match a, b with Num x, Num y => Num (x * y) | _, _ => NaN end.

(** [Math.max(a, b)]: [NaN] as soon as one argument is. *)
Definition jmax (a b : JsNum) : JsNum :=
  match a, b with Num x, Num y => Num (Z.max x y) | _, _ => NaN end.

(** [Math.floor(a / b)] for a positive integer divisor. *)
Definition jfloordiv (a : JsNum) (b : Z) : JsNum :=
  match a with Num x => Num (x / b) | NaN => NaN end.

(** Comparisons: every comparison with [NaN] is false. *)
Definition jlt (a b : JsNum) : bool :=
  match a, b with Num x, Num y => x <? y | _, _ => false end.
Definition jle (a b : JsNum) : bool :=
  match a, b with Num x, Num y => x <=? y | _, _ => false end.
Definition jgt (a b : JsNum) : bool := jlt b a.
Definition jge (a b : JsNum) : bool := jle b a.

(** [a === b] and [a !== b] on numbers. *)
Definition jeq (a b : JsNum) : bool :=
  match a, b with Num x, Num y => x =? y | _, _ => false end.
Definition jneq (a b : JsNum) : bool := negb (jeq a b).

(** ** types.ts *)

Inductive TimerState : Type :=
| IDLE
| WORK_SESSION
| REST_PERIOD
| PAUSED.

(** The string value of each member of the enum. *)
Definition tag (s : TimerState) : string :=
  match s with
  | IDLE => "idle"
  | WORK_SESSION => "work_session"
  | REST_PERIOD => "rest_period"
  | PAUSED => "paused"
  end.

Definition TimerState_eqb (a b : TimerState) : bool :=
  match a, b with
  | IDLE, IDLE | WORK_SESSION, WORK_SESSION
  | REST_PERIOD, REST_PERIOD | PAUSED, PAUSED => true
  | _, _ => false
  end.

(** A [Date], by its time value. *)
Definition Date : Type := JsNum.

Record TimerContext : Type := mkContext {
  currentState : TimerState;
  remainingTime : JsNum;      (* in seconds *)
  sessionDuration : JsNum;    (* in minutes *)
  restDuration : JsNum;       (* in minutes *)
  pausedAt : option Date;
  sessionStartTime : option Date
}.

Record TimerEventData : Type := mkEventData {
  state : TimerState;
  eventRemainingTime : JsNum;
  isTransition : bool
}.

(** What the emitter sent: the event name with its payload. *)
Inductive Emitted : Type :=
| stateChange (d : TimerEventData)
| timerComplete (d : TimerEventData).

(** ** timerManager.ts *)

Record TimerManager : Type := mkTimerManager {
  context : TimerContext;
  intervalId : bool;
  emitted : list Emitted
}.

Definition setContext (c : TimerContext) (t : TimerManager) : TimerManager :=
  mkTimerManager c (intervalId t) (emitted t).

(** [constructor(sessionDuration, restDuration)] *)
Definition newTimerManager (sessionDuration restDuration : JsNum) : TimerManager :=
  mkTimerManager
    (mkContext IDLE (Num 0) sessionDuration restDuration None None)
    false [].

Definition startTimer (t : TimerManager) : TimerManager :=
  mkTimerManager (context t) true (emitted t).

Definition stopTimer (t : TimerManager) : TimerManager :=
  mkTimerManager (context t) false (emitted t).

Definition emitStateChange (isTransition : bool) (t : TimerManager) : TimerManager :=
  let eventData :=
    mkEventData (currentState (context t)) (remainingTime (context t)) isTransition in
  mkTimerManager (context t) (intervalId t)
    (emitted t ++ stateChange eventData
               :: (if isTransition then [timerComplete eventData] else [])).

Definition startSession (now : Z) (t : TimerManager) : TimerManager :=
  let t := stopTimer t in
  let c := context t in
  let t := setContext
    (mkContext WORK_SESSION (jmul (sessionDuration c) (Num 60))
       (sessionDuration c) (restDuration c) None (Some (Num now))) t in
  let t := startTimer t in
  emitStateChange false t.

Definition startRest (now : Z) (t : TimerManager) : TimerManager :=
  let t := stopTimer t in
  let c := context t in
  let t := setContext
    (mkContext REST_PERIOD (jmul (restDuration c) (Num 60))
       (sessionDuration c) (restDuration c) None (Some (Num now))) t in
  let t := startTimer t in
  emitStateChange false t.

Definition pause (now : Z) (t : TimerManager) : TimerManager :=
  match currentState (context t) with
  | WORK_SESSION | REST_PERIOD =>
      let t := stopTimer t in
      let c := context t in
      let t := setContext
        (mkContext PAUSED (remainingTime c) (sessionDuration c) (restDuration c)
           (Some (Num now)) (sessionStartTime c)) t in
      emitStateChange false t
  | _ => t
  end.

Definition resume (t : TimerManager) : TimerManager :=
  let c := context t in
  match currentState c, pausedAt c with
  | PAUSED, Some _ =>
      let previousState :=
        if jgt (remainingTime c) (Num 0)
        then match sessionStartTime c with
             | Some _ => WORK_SESSION
             | None => REST_PERIOD
             end
        else IDLE in
      let t := setContext
        (mkContext previousState (remainingTime c) (sessionDuration c)
           (restDuration c) None (sessionStartTime c)) t in
      let t := if TimerState_eqb previousState IDLE then t else startTimer t in
      emitStateChange false t
  | _, _ => t
  end.

Definition reset (t : TimerManager) : TimerManager :=
  let t := stopTimer t in
  let c := context t in
  let t := setContext
    (mkContext IDLE (Num 0) (sessionDuration c) (restDuration c) None None) t in
  emitStateChange false t.

Definition handleTimerCompletion (t : TimerManager) : TimerManager :=
  let currentState := currentState (context t) in
  let t := stopTimer t in
  let t :=
    match currentState with
    | WORK_SESSION | REST_PERIOD =>
        let t := emitStateChange true t in
        let c := context t in
        setContext
          (mkContext IDLE (Num 0) (sessionDuration c) (restDuration c)
             (pausedAt c) None) t
    | _ => t
    end in
  emitStateChange false t.

Definition tick (t : TimerManager) : TimerManager :=
  let c := context t in
  if jgt (remainingTime c) (Num 0) then
    let t := setContext
      (mkContext (currentState c) (jsub (remainingTime c) (Num 1))
         (sessionDuration c) (restDuration c) (pausedAt c) (sessionStartTime c)) t in
    emitStateChange false t
  else handleTimerCompletion t.

(** [Math.max(0, newDuration * 60 - elapsedTime)] with
    [elapsedTime = oldDuration * 60 - remainingTime]: the expression that
    [updateDurations] uses in each of its branches. *)
Definition rescaled (oldDuration newDuration remaining : JsNum) : JsNum :=
  let elapsedTime := jsub (jmul oldDuration (Num 60)) remaining in
  let newTotalTime := jmul newDuration (Num 60) in
  jmax (Num 0) (jsub newTotalTime elapsedTime).

Definition setRemainingTime (r : JsNum) (t : TimerManager) : TimerManager :=
  let c := context t in
  setContext
    (mkContext (currentState c) r (sessionDuration c) (restDuration c)
       (pausedAt c) (sessionStartTime c)) t.

Definition updateDurations (sessionDuration' restDuration' : JsNum)
    (t : TimerManager) : TimerManager :=
  let oldSessionDuration := sessionDuration (context t) in
  let oldRestDuration := restDuration (context t) in
  let c := context t in
  let t := setContext
    (mkContext (currentState c) (remainingTime c) sessionDuration' restDuration'
       (pausedAt c) (sessionStartTime c)) t in
  match currentState (context t) with
  | IDLE => t
  | WORK_SESSION =>
      if jneq oldSessionDuration sessionDuration' then
        let t := setRemainingTime
          (rescaled oldSessionDuration sessionDuration' (remainingTime (context t))) t in
        if jeq (remainingTime (context t)) (Num 0)
        then handleTimerCompletion t
        else emitStateChange false t
      else emitStateChange false t
  | REST_PERIOD =>
      if jneq oldRestDuration restDuration' then
        let t := setRemainingTime
          (rescaled oldRestDuration restDuration' (remainingTime (context t))) t in
        if jeq (remainingTime (context t)) (Num 0)
        then handleTimerCompletion t
        else emitStateChange false t
      else emitStateChange false t
  | PAUSED =>
      let wasWorkSession :=
        jgt (remainingTime (context t)) (jmul oldRestDuration (Num 60)) in
      let t :=
        if wasWorkSession && jneq oldSessionDuration sessionDuration' then
          setRemainingTime
            (rescaled oldSessionDuration sessionDuration' (remainingTime (context t))) t
        else if negb wasWorkSession && jneq oldRestDuration restDuration' then
          setRemainingTime
            (rescaled oldRestDuration restDuration' (remainingTime (context t))) t
        else t in
      emitStateChange false t
  end.

(** [getCurrentState()]: a copy of the context. *)
Definition getCurrentState (t : TimerManager) : TimerContext := context t.

Definition isRunning (t : TimerManager) : bool :=
  match currentState (context t) with
  | WORK_SESSION | REST_PERIOD => true
  | _ => false
  end.

Definition isPaused (t : TimerManager) : bool :=
  TimerState_eqb (currentState (context t)) PAUSED.

(** *** Driving the engine

    The public operations, and the scheduled callback: [tick] is private and
    runs only from the interval that [startTimer] sets up, so it fires only
    while [intervalId] is set. *)

Inductive Op : Type :=
| OpStartSession (now : Z)
| OpStartRest (now : Z)
| OpPause (now : Z)
| OpResume
| OpReset
| OpUpdateDurations (sessionDuration restDuration : JsNum)
| OpInterval.

Definition step (t : TimerManager) (o : Op) : TimerManager :=
  match o with
  | OpStartSession now => startSession now t
  | OpStartRest now => startRest now t
  | OpPause now => pause now t
  | OpResume => resume t
  | OpReset => reset t
  | OpUpdateDurations s r => updateDurations s r t
  | OpInterval => if intervalId t then tick t else t
  end.

Definition run (ops : list Op) (t : TimerManager) : TimerManager :=
  fold_left step ops t.

(** [n] consecutive calls of [tick]. *)
Fixpoint ticks (n : nat) (t : TimerManager) : TimerManager :=
  match n with
  | O => t
  | S n => ticks n (tick t)
  end.

(** The completion notifications in a log. *)
Definition completions (l : list Emitted) : list TimerEventData :=
  flat_map (fun e => match e with timerComplete d => [d] | stateChange _ => [] end) l.

(** ** The values of the key-value store

    [globalState] holds arbitrary JavaScript values: what [saveState] wrote
    (an object whose time stamps are [Date]s), the same after a restart (the
    time stamps are then strings), or anything a corrupted store contains. *)

#[local] Set Warnings "-register-all".

Inductive JsValue : Type :=
| JUndefined
| JNull
| JBool (b : bool)
| JNumber (n : JsNum)
| JString (s : string)
| JDate (d : Date)
| JObject (props : list (string * JsValue)).

(** [!!v] *)
Definition truthy (v : JsValue) : bool :=
  match v with
  | JUndefined | JNull => false
  | JBool b => b
  | JNumber (Num z) => negb (z =? 0)
  | JNumber NaN => false
  | JString s => negb (String.eqb s "")
  | JDate _ | JObject _ => true
  end.

(** [typeof v === 'object'] *)
Definition isObjectType (v : JsValue) : bool :=
  match v with
  | JNull | JDate _ | JObject _ => true
  | _ => false
  end.

(** [typeof v === 'number'] *)
Definition isNumberType (v : JsValue) : bool :=
  match v with
  | JNumber _ => true
  | _ => false
  end.

Fixpoint lookup (prop : string) (props : list (string * JsValue)) : option JsValue :=
  match props with
  | [] => None
  | (k, v) :: props => if String.eqb k prop then Some v else lookup prop props
  end.

(** [prop in v], for the property names of a record: a [Date] has none. *)
Definition hasProp (prop : string) (v : JsValue) : bool :=
  match v with
  | JObject props => match lookup prop props with Some _ => true | None => false end
  | _ => false
  end.

(** [v.prop], [undefined] when there is no such property. *)
Definition getProp (prop : string) (v : JsValue) : JsValue :=
  match v with
  | JObject props => match lookup prop props with Some x => x | None => JUndefined end
  | _ => JUndefined
  end.

(** A value read at type [number]; validation has checked [typeof] before
    any such read, the other cases are never reached. *)
Definition asNumber (v : JsValue) : JsNum :=
  match v with
  | JNumber n => n
  | _ => NaN
  end.

(** [v === s] for a member [s] of the enum. *)
Definition isState (v : JsValue) (s : TimerState) : bool :=
  match v with
  | JString x => String.eqb x (tag s)
  | _ => false
  end.

(** [Object.values(TimerState).includes(v)] *)
Definition isTimerState (v : JsValue) : bool :=
  existsb (isState v) [IDLE; WORK_SESSION; REST_PERIOD; PAUSED].

(** A value read at type [TimerState]; validation has checked membership
    before any such read, the last case is never reached. *)
Definition asTimerState (v : JsValue) : TimerState :=
  if isState v WORK_SESSION then WORK_SESSION
  else if isState v REST_PERIOD then REST_PERIOD
  else if isState v PAUSED then PAUSED
  else IDLE.

(** The time value of [new Date(n)] for a number: out of the range of
    [Date] it is Invalid Date. *)
Definition timeClip (n : JsNum) : Date :=
  match n with
  | Num z => if Z.abs z <=? 8640000000000000 then Num z else NaN
  | NaN => NaN
  end.

(** A [Date] or [undefined] field, as a value. *)
Definition dateValue (d : option Date) : JsValue :=
  match d with
  | Some d => JDate d
  | None => JUndefined
  end.

(** ** stateManager.ts *)

(** What [globalState] holds at [STATE_KEY]; [update(key, undefined)]
    removes the entry. *)
Definition Store : Type := option JsValue.

Definition requiredProps : list string :=
  ["currentState"; "remainingTime"; "lastActiveTime"; "sessionCount";
   "totalWorkTime"; "sessionDuration"; "restDuration"].

Definition createIdleContext (sessionDuration restDuration : JsNum) : TimerContext :=
  mkContext IDLE (Num 0) sessionDuration restDuration None None.

Definition clearState (st : Store) : Store := None.

Definition saveState (now : Z) (timerContext : TimerContext)
    (sessionCount totalWorkTime : JsNum) (st : Store) : Store :=
  Some (JObject
    [("currentState", JString (tag (currentState timerContext)));
     ("remainingTime", JNumber (remainingTime timerContext));
     ("sessionStartTime", dateValue (sessionStartTime timerContext));
     ("lastActiveTime", JDate (Num now));
     ("sessionCount", JNumber sessionCount);
     ("totalWorkTime", JNumber totalWorkTime);
     ("sessionDuration", JNumber (sessionDuration timerContext));
     ("restDuration", JNumber (restDuration timerContext))]).

Section StateManager.

(** [Date.parse]: the time value of a string, [NaN] when it is not a
    time stamp. *)
Variable Date_parse : string -> JsNum.

(** [new Date(v)] throws a [TypeError] on an object that cannot be turned
    into a primitive value. The values of the store hold no function, so an
    object with a property [toString] of its own hides the method that
    would print it, and no primitive value is found; without such a
    property the object prints as ["[object Object]"]. No other value of
    [JsValue] makes [new Date] throw. *)
Definition newDateThrows (v : JsValue) : bool :=
  match v with
  | JObject props =>
      match lookup "toString" props with Some _ => true | None => false end
  | _ => false
  end.

(** The time value of [new Date(v)] where it does not throw. It is
    Invalid Date on what cannot be read as a time stamp. *)
Definition newDate (v : JsValue) : Date :=
  match v with
  | JUndefined => NaN
  | JNull => Num 0
  | JBool b => Num (if b then 1 else 0)
  | JNumber n => timeClip n
  | JString s => Date_parse s
  | JDate d => d
  | JObject _ => Date_parse "[object Object]"
  end.

(** The [try] block builds a [Date] from [lastActiveTime] and, when it is
    truthy, from [sessionStartTime]; the record is rejected when one of the
    two throws, and for nothing else that the dates may be: an Invalid
    Date is built without an exception. What [restoreState] builds
    afterwards from the same two properties does not throw either. *)
Definition isValidPersistedState (state : JsValue) : bool :=
  if negb (truthy state) || negb (isObjectType state) then false
  else if negb (forallb (fun prop => hasProp prop state) requiredProps) then false
  else if negb (isTimerState (getProp "currentState" state)) then false
  else if negb (isNumberType (getProp "remainingTime" state))
          || jlt (asNumber (getProp "remainingTime" state)) (Num 0) then false
  else if negb (isNumberType (getProp "sessionDuration" state))
          || jlt (asNumber (getProp "sessionDuration" state)) (Num 1)
          || jgt (asNumber (getProp "sessionDuration" state)) (Num 120) then false
  else if negb (isNumberType (getProp "restDuration" state))
          || jlt (asNumber (getProp "restDuration" state)) (Num 1)
          || jgt (asNumber (getProp "restDuration" state)) (Num 60) then false
  else if newDateThrows (getProp "lastActiveTime" state) then false
  else
    let _ := newDate (getProp "lastActiveTime" state) in
    if truthy (getProp "sessionStartTime" state)
       && newDateThrows (getProp "sessionStartTime" state) then false
    else
      let _ := if truthy (getProp "sessionStartTime" state)
               then Some (newDate (getProp "sessionStartTime" state)) else None in
      true.

(** [v ? new Date(v) : undefined] *)
Definition optionalDate (v : JsValue) : option Date :=
  if truthy v then Some (newDate v) else None.

Definition createTimerContextFromPersisted (now : Z) (persistedState : JsValue)
    : TimerContext :=
  mkContext
    (asTimerState (getProp "currentState" persistedState))
    (asNumber (getProp "remainingTime" persistedState))
    (asNumber (getProp "sessionDuration" persistedState))
    (asNumber (getProp "restDuration" persistedState))
    (if isState (getProp "currentState" persistedState) PAUSED
     then Some (Num now) else None)
    (optionalDate (getProp "sessionStartTime" persistedState)).

Definition handleExpiredSession (now : Z) (persistedState : JsValue)
    (timeDifference : JsNum) : TimerContext :=
  let sessionDuration := asNumber (getProp "sessionDuration" persistedState) in
  let restDuration := asNumber (getProp "restDuration" persistedState) in
  let restDurationSeconds := jmul restDuration (Num 60) in
  if isState (getProp "currentState" persistedState) WORK_SESSION then
    let timeAfterWorkSession :=
      jsub timeDifference (asNumber (getProp "remainingTime" persistedState)) in
    if jge timeAfterWorkSession restDurationSeconds then
      createIdleContext sessionDuration restDuration
    else
      let remainingRestTime := jsub restDurationSeconds timeAfterWorkSession in
      mkContext REST_PERIOD remainingRestTime sessionDuration restDuration None
        (Some (timeClip (jsub (Num now) (jmul timeAfterWorkSession (Num 1000)))))
  else if isState (getProp "currentState" persistedState) REST_PERIOD then
    createIdleContext sessionDuration restDuration
  else
    createIdleContext sessionDuration restDuration.

(** [restoreState()]: what it returns ([None] is [null]) and the store it
    leaves. *)
Definition restoreState (now : Z) (st : Store) : option TimerContext * Store :=
  match st with
  | None => (None, st)
  | Some persistedState =>
      if negb (truthy persistedState) then (None, st)
      else if negb (isValidPersistedState persistedState) then (None, clearState st)
      else
        let lastActiveTime := newDate (getProp "lastActiveTime" persistedState) in
        let timeDifference := jfloordiv (jsub (Num now) lastActiveTime) 1000 in
        if isState (getProp "currentState" persistedState) IDLE
           || isState (getProp "currentState" persistedState) PAUSED then
          (Some (createTimerContextFromPersisted now persistedState), st)
        else
          let adjustedRemainingTime :=
            jmax (Num 0)
              (jsub (asNumber (getProp "remainingTime" persistedState)) timeDifference) in
          if jle adjustedRemainingTime (Num 0) then
            (Some (handleExpiredSession now persistedState timeDifference), st)
          else
            (Some (mkContext
                     (asTimerState (getProp "currentState" persistedState))
                     adjustedRemainingTime
                     (asNumber (getProp "sessionDuration" persistedState))
                     (asNumber (getProp "restDuration" persistedState))
                     None
                     (optionalDate (getProp "sessionStartTime" persistedState))),
             st)
  end.

End StateManager.

(** A host whose [Date.parse] reads no string as a time stamp; it serves
    where the record holds [Date]s and numbers only, so that no string is
    parsed. *)
Definition parseNothing : string -> JsNum := fun _ => NaN.

(** ** Predicates of the properties *)

(** [sessionStartTime] holds a [Date]. *)
Definition isStarted (t : TimerManager) : bool :=
  match sessionStartTime (context t) with Some _ => true | None => false end.

(** [sessionStartTime] is set exactly in the running phases. *)
Definition startedIffRunning (t : TimerManager) : bool :=
  Bool.eqb (isStarted t) (isRunning t).

(** [sessionStartTime] is set in every phase but [IDLE]. *)
Definition startedUnlessIdle (t : TimerManager) : Prop :=
  currentState (context t) <> IDLE -> isStarted t = true.

(** [sessionStartTime] is cleared in phase [IDLE]. *)
Definition clearedWhenIdle (t : TimerManager) : Prop :=
  currentState (context t) = IDLE -> isStarted t = false.

(** A paused engine has its [pausedAt] and no scheduled tick. *)
Definition pausedIsStopped (t : TimerManager) : Prop :=
  currentState (context t) = PAUSED ->
  pausedAt (context t) <> None /\ intervalId t = false.

(** The bounds of the configuration: 1..120 and 1..60 minutes. *)
Definition durationsInBounds (sessionDuration restDuration : JsNum) : bool :=
  jle (Num 1) sessionDuration && jle sessionDuration (Num 120)
  && jle (Num 1) restDuration && jle restDuration (Num 60).

Definition contextInBounds (t : TimerManager) : bool :=
  durationsInBounds (sessionDuration (context t)) (restDuration (context t)).

Definition opInBounds (o : Op) : bool :=
  match o with
  | OpUpdateDurations s r => durationsInBounds s r
  | _ => true
  end.

Definition isUpdateDurations (o : Op) : bool :=
  match o with
  | OpUpdateDurations _ _ => true
  | _ => false
  end.

Definition durations (t : TimerManager) : JsNum * JsNum :=
  (sessionDuration (context t), restDuration (context t)).

(** The rescaling as the specification writes it, on integers:
    [max(0, newDurationSeconds - elapsedSeconds)] with
    [elapsedSeconds = oldDurationSeconds - remaining]. *)
Definition specRescaled (oldMinutes newMinutes remaining : Z) : Z :=
  Z.max 0 (newMinutes * 60 - (oldMinutes * 60 - remaining)).

(** ** Engines and records of the examples *)

(** A fresh engine with the default durations, 25 and 5 minutes. *)
Definition timer25 : TimerManager := newTimerManager (Num 25) (Num 5).

(** A fresh engine with one-minute durations, as the test suites use. *)
Definition timer1 : TimerManager := newTimerManager (Num 1) (Num 1).

(** A rest period started at time 1000. *)
Definition resting25 : TimerManager := startRest 1000 timer25.

(** A work session started at time 1000. *)
Definition working25 : TimerManager := startSession 1000 timer25.

(** A one-minute work session started at time 0. *)
Definition working1 : TimerManager := startSession 0 timer1.

(** The same session after the interval fired sixty times: the countdown
    shows 0 and the phase is still [WORK_SESSION]. *)
Definition workingAtZero : TimerManager :=
  run (OpStartSession 0 :: repeat OpInterval 60) timer1.

(** A one-minute work session paused as soon as it started. *)
Definition pausedWork1 : TimerManager := pause 0 working1.

(** The record of the test suite: a 25-minute work session, 1500 seconds
    left, last saved at time 0. *)
Definition storedWork : JsValue :=
  JObject
    [("currentState", JString "work_session"); ("remainingTime", JNumber (Num 1500));
     ("sessionStartTime", JDate (Num 0)); ("lastActiveTime", JDate (Num 0));
     ("sessionCount", JNumber (Num 1)); ("totalWorkTime", JNumber (Num 0));
     ("sessionDuration", JNumber (Num 25)); ("restDuration", JNumber (Num 5))].

(** A well-formed idle record but for [lastActiveTime], a string [s]. *)
Definition storedIdleStamped (s : string) : JsValue :=
  JObject
    [("currentState", JString "idle"); ("remainingTime", JNumber (Num 0));
     ("lastActiveTime", JString s);
     ("sessionCount", JNumber (Num 0)); ("totalWorkTime", JNumber (Num 0));
     ("sessionDuration", JNumber (Num 25)); ("restDuration", JNumber (Num 5))].

(** A well-formed record of a work session but for [lastActiveTime], a
    string [s]. *)
Definition storedWorkStamped (s : string) : JsValue :=
  JObject
    [("currentState", JString "work_session"); ("remainingTime", JNumber (Num 1500));
     ("lastActiveTime", JString s);
     ("sessionCount", JNumber (Num 0)); ("totalWorkTime", JNumber (Num 0));
     ("sessionDuration", JNumber (Num 25)); ("restDuration", JNumber (Num 5))].

(** A well-formed idle record but for [lastActiveTime], an object with a
    property [toString] of its own, from which no [Date] can be built. *)
Definition storedIdleObjectStamp : JsValue :=
  JObject
    [("currentState", JString "idle"); ("remainingTime", JNumber (Num 0));
     ("lastActiveTime", JObject [("toString", JString "x")]);
     ("sessionCount", JNumber (Num 7)); ("totalWorkTime", JNumber (Num 0));
     ("sessionDuration", JNumber (Num 25)); ("restDuration", JNumber (Num 5))].

(** The context of a 25-minute work session started at time 1000 and paused
    at time 2000. *)
Definition pausedContext : TimerContext := context (pause 2000 working25).

(** The record that [saveState] writes for it at time 2000. *)
Definition storedPaused : JsValue :=
  JObject
    [("currentState", JString "paused"); ("remainingTime", JNumber (Num 1500));
     ("sessionStartTime", JDate (Num 1000)); ("lastActiveTime", JDate (Num 2000));
     ("sessionCount", JNumber (Num 0)); ("totalWorkTime", JNumber (Num 0));
     ("sessionDuration", JNumber (Num 25)); ("restDuration", JNumber (Num 5))].

(** ** The rest of timerManager.ts: formatTime *)







(** ** The rest of stateManager.ts: the statistics *)

(** [obj.prop = v] on the properties of an object: an existing property
    keeps its place, a new one comes last. *)
Fixpoint assign (prop : string) (v : JsValue) (props : list (string * JsValue))
    : list (string * JsValue) :=
  match props with
  | [] => [(prop, v)]
  | (k, x) :: props =>
      if String.eqb k prop then (k, v) :: props
      else (k, x) :: assign prop v props
  end.

(** [v.prop = x]; the code assigns to validated records only, which are
    objects. *)
Definition setProp (prop : string) (x : JsValue) (v : JsValue) : JsValue :=
  match v with
  | JObject props => JObject (assign prop x props)
  | _ => v
  end.

Section Statistics.

Variable Date_parse : string -> JsNum.

(** [getStatistics()]: the two counters as the record holds them. *)
Definition getStatistics (st : Store) : JsValue * JsValue :=
  match st with
  | None => (JNumber (Num 0), JNumber (Num 0))
  | Some persistedState =>
      if negb (truthy persistedState)
         || negb (isValidPersistedState Date_parse persistedState)
      then (JNumber (Num 0), JNumber (Num 0))
      else (getProp "sessionCount" persistedState,
            getProp "totalWorkTime" persistedState)
  end.

(** [updateStatistics(sessionCount, totalWorkTime)]: the record in the
    store is assigned to, then written back. *)
Definition updateStatistics (sessionCount totalWorkTime : JsNum) (st : Store) : Store :=
  match st with
  | None => st
  | Some persistedState =>
      if truthy persistedState && isValidPersistedState Date_parse persistedState
      then Some (setProp "totalWorkTime" (JNumber totalWorkTime)
                   (setProp "sessionCount" (JNumber sessionCount) persistedState))
      else st
  end.

End Statistics.

(** ** configurationManager.ts: the durations of the configuration *)

(** What [config.get] returns for a duration. A setting may be any number,
    a fraction too, so a finite number is a rational here; the validators
    turn it into an integer for the engine. *)
Inductive SettingValue : Type :=
| SettingNumber (q : Q)
| SettingInfinity (negative : bool)
| SettingNaN
| SettingOther.

(** [a < b] on finite numbers. *)
Definition qlt (a b : Q) : bool := negb (Qle_bool b a).

Definition defaultSessionDuration : JsNum := Num 25.
Definition defaultRestDuration : JsNum := Num 5.

(** [validateSessionDurationInternal(value)]; the warning it shows is not
    modelled. [SettingOther] is [undefined] or a value whose [typeof] is not
    ['number']. *)
Definition validateSessionDurationInternal (value : SettingValue) : JsNum :=
  match value with
  | SettingOther | SettingNaN => defaultSessionDuration
  | SettingInfinity negative => if negative then Num 1 else Num 120
  | SettingNumber q =>
      if qlt q (inject_Z 1) then Num 1
      else if qlt (inject_Z 120) q then Num 120
      else Num (Qfloor q)
  end.

Definition validateRestDurationInternal (value : SettingValue) : JsNum :=
  match value with
  | SettingOther | SettingNaN => defaultRestDuration
  | SettingInfinity negative => if negative then Num 1 else Num 60
  | SettingNumber q =>
      if qlt q (inject_Z 1) then Num 1
      else if qlt (inject_Z 60) q then Num 60
      else Num (Qfloor q)
  end.

(** [validateSessionDuration(value)] and [validateRestDuration(value)], the
    public tests: [value >= 1 && value <= max]. *)
Definition validateSessionDuration (value : SettingValue) : bool :=
  match value with
  | SettingNumber q => Qle_bool (inject_Z 1) q && Qle_bool q (inject_Z 120)
  | _ => false
  end.

Definition validateRestDuration (value : SettingValue) : bool :=
  match value with
  | SettingNumber q => Qle_bool (inject_Z 1) q && Qle_bool q (inject_Z 60)
  | _ => false
  end.

(** ** extension.ts and statusBarController.ts: how the engine is driven *)

(** What reaches the engine in [WorkSessionManagerExtension]: the five
    commands, the interval, and a change of the configuration, whose
    durations [getConfiguration] has validated before [updateDurations]
    receives them. *)
Inductive HostEvent : Type :=
| CommandStartSession (now : Z)
| CommandStartRest (now : Z)
| CommandPause (now : Z)
| CommandResume
| CommandReset
| IntervalFired
| ConfigurationChanged (sessionDuration restDuration : SettingValue).

Definition hostOp (e : HostEvent) : Op :=
  match e with
  | CommandStartSession now => OpStartSession now
  | CommandStartRest now => OpStartRest now
  | CommandPause now => OpPause now
  | CommandResume => OpResume
  | CommandReset => OpReset
  | IntervalFired => OpInterval
  | ConfigurationChanged s r =>
      OpUpdateDurations (validateSessionDurationInternal s)
                        (validateRestDurationInternal r)
  end.

(** [initializeComponents]: the engine gets the validated durations. *)
Definition initializeTimer (sessionDuration restDuration : SettingValue)
    : TimerManager :=
  newTimerManager (validateSessionDurationInternal sessionDuration)
                  (validateRestDurationInternal restDuration).



(** ** Predicates of the further properties *)

(** The countdown and the durations are integers that are not negative,
    and the countdown is 0 in phase [IDLE]. *)
Definition countsDown (t : TimerManager) : Prop :=
  exists r s d : Z,
    remainingTime (context t) = Num r
    /\ sessionDuration (context t) = Num s
    /\ restDuration (context t) = Num d
    /\ 0 <= r /\ 0 <= s /\ 0 <= d
    /\ (currentState (context t) = IDLE -> r = 0).

Definition isNonNegative (n : JsNum) : bool :=
  match n with Num z => 0 <=? z | NaN => false end.

(** The durations that [updateDurations] is given are integers that are
    not negative. *)
Definition opNonNegative (o : Op) : bool :=
  match o with
  | OpUpdateDurations s r => isNonNegative s && isNonNegative r
  | _ => true
  end.

(** What validation asks of the numbers of a saved context: a countdown
    that is not below 0 and durations that are neither below 1 nor above
    120 and 60. The tests are comparisons, which [NaN] passes. *)
Definition savedContextValid (c : TimerContext) : bool :=
  negb (jlt (remainingTime c) (Num 0))
  && negb (jlt (sessionDuration c) (Num 1) || jgt (sessionDuration c) (Num 120))
  && negb (jlt (restDuration c) (Num 1) || jgt (restDuration c) (Num 60)).

(** [pausedAt] holds a [Date]. *)
Definition hasPausedAt (t : TimerManager) : bool :=
  match pausedAt (context t) with Some _ => true | None => false end.

(** The last notification sent is a plain state change that carries the
    phase and the countdown of the engine; before any notification, the
    engine is idle with the countdown at 0. *)
Definition showsCurrent (t : TimerManager) : Prop :=
  match rev (emitted t) with
  | [] => currentState (context t) = IDLE /\ remainingTime (context t) = Num 0
  | e :: _ =>
      e = stateChange (mkEventData (currentState (context t))
                                   (remainingTime (context t)) false)
  end.

(** Two engines in the same state, whatever each has emitted so far. *)
Definition sameState (t t' : TimerManager) : Prop :=
  context t = context t' /\ intervalId t = intervalId t'.

(** Case analysis on the tests of an operation, until no branch is left. *)
Ltac break_branches :=
  repeat (simpl;
          match goal with
          | |- context [if ?b then _ else _] => destruct b eqn:?
          | |- context [match ?x with _ => _ end] => destruct x eqn:?
          end);
  simpl in *.



(** * Properties of the timer engine *)


Lemma completions_app (l l' : list Emitted) :
  completions (l ++ l') = completions l ++ completions l'.
Proof. unfold completions. apply flat_map_app. Qed.

Lemma completions_stateChange (l : list Emitted) (d : TimerEventData) :
  completions (l ++ [stateChange d]) = completions l.
Proof. rewrite completions_app. simpl. apply app_nil_r. Qed.

(** One tick of a countdown that has not reached 0: one second less, the
    rest of the context, the interval and the completions as they were. *)
Lemma tick_counts_down (t : TimerManager) (r : Z) :
  remainingTime (context t) = Num r -> 0 < r ->
  context (tick t) = context (setRemainingTime (Num (r - 1)) t)
  /\ intervalId (tick t) = intervalId t
  /\ completions (emitted (tick t)) = completions (emitted t).
Proof.
  intros Hr Hpos. unfold tick. rewrite Hr. simpl.
  assert (Hlt : (0 <? r) = true) by (apply Z.ltb_lt; exact Hpos).
  rewrite Hlt. simpl. repeat split.
  apply completions_stateChange.
Qed.

(** [n] ticks of a countdown that shows at least [n] seconds. *)
Lemma ticks_count_down (n : nat) : forall (t : TimerManager) (r : Z),
  remainingTime (context t) = Num r -> Z.of_nat n <= r ->
  context (ticks n t) = context (setRemainingTime (Num (r - Z.of_nat n)) t)
  /\ intervalId (ticks n t) = intervalId t
  /\ completions (emitted (ticks n t)) = completions (emitted t).
Proof.
  induction n as [|n IH]; intros t r Hr Hle.
  - simpl ticks. rewrite Z.sub_0_r. repeat split.
    destruct t as [[s rem sd rd p st] i l]. simpl in *. now subst.
  - assert (Hpos : 0 < r) by lia.
    destruct (tick_counts_down t r Hr Hpos) as (Hc & Hi & He).
    assert (Hr' : remainingTime (context (tick t)) = Num (r - 1))
      by (rewrite Hc; reflexivity).
    destruct (IH (tick t) (r - 1) Hr' ltac:(lia)) as (Hc' & Hi' & He').
    simpl ticks. rewrite Hc', Hi', He', Hi, He. repeat split.
    unfold setRemainingTime, setContext. simpl. rewrite Hc. simpl.
    do 2 f_equal. lia.
Qed.

(** The tick at 0 of a work session: completion. *)
Lemma tick_at_zero_completes_work (t : TimerManager) :
  currentState (context t) = WORK_SESSION ->
  remainingTime (context t) = Num 0 ->
  currentState (context (tick t)) = IDLE
  /\ remainingTime (context (tick t)) = Num 0
  /\ intervalId (tick t) = false
  /\ completions (emitted (tick t))
     = completions (emitted t) ++ [mkEventData WORK_SESSION (Num 0) true].
Proof.
  intros Hs Hr. unfold tick. rewrite Hr. simpl.
  unfold handleTimerCompletion. rewrite Hs. simpl. repeat split.
  rewrite Hs, Hr. rewrite completions_app. simpl.
  rewrite completions_app. simpl. now rewrite app_nil_r.
Qed.

Lemma ticks_succ (n : nat) : forall t : TimerManager,
  ticks (S n) t = tick (ticks n t).
Proof.
  induction n as [|n IH]; intro t; [reflexivity|].
  change (ticks (S (S n)) t) with (ticks (S n) (tick t)).
  rewrite IH. reflexivity.
Qed.

(** First half of C3: fewer ticks than seconds left keep the work session
    running, with exactly that many seconds less and no completion. *)
Lemma ticks_below_remaining (t : TimerManager) (r : Z) (n : nat) :
  currentState (context t) = WORK_SESSION ->
  remainingTime (context t) = Num r ->
  Z.of_nat n < r ->
  currentState (context (ticks n t)) = WORK_SESSION
  /\ remainingTime (context (ticks n t)) = Num (r - Z.of_nat n)
  /\ completions (emitted (ticks n t)) = completions (emitted t).
Proof.
  intros Hs Hr Hlt.
  destruct (ticks_count_down n t r Hr ltac:(lia)) as (Hc & _ & He).
  rewrite Hc, He. simpl. auto.
Qed.

(** C3, where the code departs from the claim: a work session with [r]
    seconds left is still in phase [WORK_SESSION] after exactly [r] ticks,
    its countdown at 0 and no completion emitted; it is the tick after
    those, the [r + 1]-th, that moves the engine to [IDLE] and emits the
    one completion notification, tagged [WORK_SESSION]. *)
Theorem ticks_reach_zero_then_complete (t : TimerManager) (r : nat) :
  currentState (context t) = WORK_SESSION ->
  remainingTime (context t) = Num (Z.of_nat r) ->
  (currentState (context (ticks r t)) = WORK_SESSION
   /\ remainingTime (context (ticks r t)) = Num 0
   /\ completions (emitted (ticks r t)) = completions (emitted t))
  /\ (currentState (context (ticks (S r) t)) = IDLE
      /\ remainingTime (context (ticks (S r) t)) = Num 0
      /\ completions (emitted (ticks (S r) t))
         = completions (emitted t) ++ [mkEventData WORK_SESSION (Num 0) true]).
Proof.
  intros Hs Hr.
  destruct (ticks_count_down r t _ Hr (Z.le_refl _)) as (Hc & _ & He).
  assert (Hs' : currentState (context (ticks r t)) = WORK_SESSION)
    by (rewrite Hc; exact Hs).
  assert (Hr' : remainingTime (context (ticks r t)) = Num 0)
    by (rewrite Hc; simpl; f_equal; lia).
  split; [auto|].
  rewrite ticks_succ.
  destruct (tick_at_zero_completes_work _ Hs' Hr') as (H1 & H2 & _ & H4).
  rewrite H1, H2, H4, He. auto.
Qed.

(** At the one-minute work session of the test suite: sixty ticks leave it
    in [WORK_SESSION] at 0, the sixty-first completes it. *)
Lemma ticks_reach_zero_then_complete_witness :
  (currentState (context (ticks 60 working1)) = WORK_SESSION
   /\ remainingTime (context (ticks 60 working1)) = Num 0
   /\ completions (emitted (ticks 60 working1)) = completions (emitted working1))
  /\ (currentState (context (ticks 61 working1)) = IDLE
      /\ remainingTime (context (ticks 61 working1)) = Num 0
      /\ completions (emitted (ticks 61 working1))
         = completions (emitted working1) ++ [mkEventData WORK_SESSION (Num 0) true]).
Proof.
  apply (ticks_reach_zero_then_complete working1 60); reflexivity.
Defined.

(** ** Pause and resume *)

(** [resume] changes nothing unless the phase is [PAUSED]. *)
Lemma resume_not_paused (t : TimerManager) :
  currentState (context t) <> PAUSED -> resume t = t.
Proof.
  intro H. unfold resume.
  destruct (currentState (context t)); try reflexivity. now destruct H.
Qed.

(** What [pause] leaves of a running phase: the countdown and the start
    time as they were, the pause time set, the interval cleared. *)
Lemma pause_running (now : Z) (t : TimerManager) :
  isRunning t = true ->
  context (pause now t)
  = mkContext PAUSED (remainingTime (context t)) (sessionDuration (context t))
      (restDuration (context t)) (Some (Num now)) (sessionStartTime (context t))
  /\ intervalId (pause now t) = false.
Proof.
  unfold isRunning, pause. destruct (currentState (context t)); try discriminate; auto.
Qed.

(** Pausing a work session that has time left and resuming it at once
    gives back the phase and the countdown. *)
Lemma pause_resume_work_session (now : Z) (t : TimerManager) (r : Z) :
  currentState (context t) = WORK_SESSION ->
  isStarted t = true ->
  remainingTime (context t) = Num r -> 0 < r ->
  currentState (context (resume (pause now t))) = WORK_SESSION
  /\ remainingTime (context (resume (pause now t))) = Num r.
Proof.
  intros Hs Hst Hr Hpos.
  assert (Hrun : isRunning t = true) by (unfold isRunning; now rewrite Hs).
  destruct (pause_running now t Hrun) as (Hc & _).
  unfold resume. rewrite Hc. simpl. rewrite Hr. simpl.
  assert (Hlt : (0 <? r) = true) by (apply Z.ltb_lt; exact Hpos). rewrite Hlt.
  unfold isStarted in Hst. destruct (sessionStartTime (context t)); [|discriminate].
  simpl. auto.
Qed.

(** Both [startSession] and [startRest] set [sessionStartTime], so a paused
    rest period has it too, and [resume] reads it as the mark of a work
    session: a rest period paused with time left resumes as a work
    session. *)
Lemma pause_resume_rest_period (now : Z) (t : TimerManager) (r : Z) :
  currentState (context t) = REST_PERIOD ->
  isStarted t = true ->
  remainingTime (context t) = Num r -> 0 < r ->
  currentState (context (resume (pause now t))) = WORK_SESSION
  /\ remainingTime (context (resume (pause now t))) = Num r.
Proof.
  intros Hs Hst Hr Hpos.
  assert (Hrun : isRunning t = true) by (unfold isRunning; now rewrite Hs).
  destruct (pause_running now t Hrun) as (Hc & _).
  unfold resume. rewrite Hc. simpl. rewrite Hr. simpl.
  assert (Hlt : (0 <? r) = true) by (apply Z.ltb_lt; exact Hpos). rewrite Hlt.
  unfold isStarted in Hst. destruct (sessionStartTime (context t)); [|discriminate].
  simpl. auto.
Qed.

(** ** The engine's invariants *)

Lemma step_pausedIsStopped (t : TimerManager) (o : Op) :
  pausedIsStopped t -> pausedIsStopped (step t o).
Proof.
  unfold pausedIsStopped. intro H.
  destruct t as [[s rem sd rd p st] i l]. simpl in H.
  destruct o; cbn [step];
    unfold startSession, startRest, pause, resume, reset, updateDurations,
           tick, handleTimerCompletion;
    break_branches; intro Hs; try discriminate Hs; auto;
    try (split; [discriminate | reflexivity]);
    destruct (H eq_refl) as [Hp Hi]; split; [exact Hp | reflexivity || exact Hi].
Qed.

Lemma run_pausedIsStopped (ops : list Op) : forall t : TimerManager,
  pausedIsStopped t -> pausedIsStopped (run ops t).
Proof.
  induction ops as [|o ops IH]; intros t H; simpl; auto.
  apply IH. now apply step_pausedIsStopped.
Qed.

Lemma new_pausedIsStopped (s r : JsNum) : pausedIsStopped (newTimerManager s r).
Proof. unfold pausedIsStopped. simpl. discriminate. Qed.

(** [resume] at a countdown of 0, whatever the engine did before. *)
Lemma resume_paused_at_zero (t : TimerManager) :
  currentState (context t) = PAUSED ->
  pausedAt (context t) <> None ->
  remainingTime (context t) = Num 0 ->
  currentState (context (resume t)) = IDLE
  /\ remainingTime (context (resume t)) = Num 0
  /\ intervalId (resume t) = intervalId t.
Proof.
  intros Hs Hp Hr. unfold resume. rewrite Hs, Hr.
  destruct (pausedAt (context t)); [|now destruct Hp]. simpl. auto.
Qed.

(** C10: in every state that the operations of the engine reach from a new
    engine, if the phase is [PAUSED] and the countdown is 0 then [resume]
    moves to [IDLE] with the countdown at 0, not to a running phase, and no
    tick callback is scheduled afterwards. *)
Theorem resume_at_zero_goes_idle (s r : JsNum) (ops : list Op) :
  currentState (context (run ops (newTimerManager s r))) = PAUSED ->
  remainingTime (context (run ops (newTimerManager s r))) = Num 0 ->
  currentState (context (resume (run ops (newTimerManager s r)))) = IDLE
  /\ remainingTime (context (resume (run ops (newTimerManager s r)))) = Num 0
  /\ isRunning (resume (run ops (newTimerManager s r))) = false
  /\ intervalId (resume (run ops (newTimerManager s r))) = false.
Proof.
  intros Hs Hr.
  destruct (run_pausedIsStopped ops _ (new_pausedIsStopped s r) Hs) as (Hp & Hi).
  destruct (resume_paused_at_zero _ Hs Hp Hr) as (H1 & H2 & H3).
  unfold isRunning. rewrite H1, H2, H3, Hi. auto.
Qed.

(** A one-minute work session counted down to 0 by sixty ticks, then
    paused: resuming it gives [IDLE]. *)
Lemma resume_at_zero_goes_idle_witness :
  currentState (context (resume (run (OpStartSession 0 :: repeat OpInterval 60 ++ [OpPause 60000])
                                   (newTimerManager (Num 1) (Num 1))))) = IDLE
  /\ remainingTime (context (resume (run (OpStartSession 0 :: repeat OpInterval 60 ++ [OpPause 60000])
                                       (newTimerManager (Num 1) (Num 1))))) = Num 0
  /\ isRunning (resume (run (OpStartSession 0 :: repeat OpInterval 60 ++ [OpPause 60000])
                          (newTimerManager (Num 1) (Num 1)))) = false
  /\ intervalId (resume (run (OpStartSession 0 :: repeat OpInterval 60 ++ [OpPause 60000])
                           (newTimerManager (Num 1) (Num 1)))) = false.
Proof.
  apply (resume_at_zero_goes_idle (Num 1) (Num 1)
           (OpStartSession 0 :: repeat OpInterval 60 ++ [OpPause 60000]));
    reflexivity.
Defined.

(** ** The start time of the phase *)

Lemma new_startedUnlessIdle (s r : JsNum) : startedUnlessIdle (newTimerManager s r).
Proof. intro H. now destruct H. Qed.

Lemma new_clearedWhenIdle (s r : JsNum) : clearedWhenIdle (newTimerManager s r).
Proof. intro H. reflexivity. Qed.

(** C4 as stated fails: a work session started at time 1000 has its start
    time and runs, so the stated invariant holds of it; [pause] then moves
    it to [PAUSED] and keeps the start time, and the invariant is lost. *)
Lemma pause_keeps_sessionStartTime :
  startedIffRunning working25 = true
  /\ currentState (context (step working25 (OpPause 2000))) = PAUSED
  /\ sessionStartTime (context (step working25 (OpPause 2000))) = Some (Num 1000)
  /\ startedIffRunning (step working25 (OpPause 2000)) = false.
Proof. repeat split. Qed.

Lemma step_startedUnlessIdle (t : TimerManager) (o : Op) :
  startedUnlessIdle t -> startedUnlessIdle (step t o).
Proof.
  unfold startedUnlessIdle, isStarted.
  destruct t as [[s rem sd rd p st] i l]. cbn [context currentState sessionStartTime].
  intro H.
  destruct o; cbn [step];
    unfold startSession, startRest, pause, resume, reset, updateDurations,
           tick, handleTimerCompletion;
    break_branches; intro Hs; try reflexivity; try discriminate Hs;
    try (now destruct Hs); subst;
    try (apply H; congruence).
Qed.

Lemma step_clearedWhenIdle (t : TimerManager) (o : Op) :
  o <> OpResume -> clearedWhenIdle t -> clearedWhenIdle (step t o).
Proof.
  unfold clearedWhenIdle, isStarted.
  destruct t as [[s rem sd rd p st] i l]. cbn [context currentState sessionStartTime].
  intros Ho H.
  destruct o; [ | | | now destruct Ho | | | ]; cbn [step];
    unfold startSession, startRest, pause, resume, reset, updateDurations,
           tick, handleTimerCompletion;
    break_branches; intro Hs; try reflexivity; try discriminate Hs; subst;
    try congruence; try (apply H; congruence).
Qed.

(** C4, amended: every operation of the engine preserves that
    [sessionStartTime] is set in the phases [WORK_SESSION], [REST_PERIOD]
    and [PAUSED] ([pause] keeps the start time of the phase it pauses), and
    every operation other than [resume] preserves that it is cleared in
    phase [IDLE]. *)
Theorem sessionStartTime_invariant (t : TimerManager) (o : Op) :
  (startedUnlessIdle t -> startedUnlessIdle (step t o))
  /\ (o <> OpResume -> clearedWhenIdle t -> clearedWhenIdle (step t o)).
Proof.
  split; [apply step_startedUnlessIdle | apply step_clearedWhenIdle].
Qed.

(** At a running work session and [pause]: the start time stays set. *)
Lemma sessionStartTime_invariant_witness :
  startedUnlessIdle (step working25 (OpPause 2000))
  /\ clearedWhenIdle (step working25 (OpPause 2000)).
Proof.
  split.
  - apply (proj1 (sessionStartTime_invariant working25 (OpPause 2000))).
    intros _. reflexivity.
  - apply (proj2 (sessionStartTime_invariant working25 (OpPause 2000))).
    + discriminate.
    + intro H. discriminate H.
Defined.

(** The start time is set in every phase but [IDLE], in every state that
    the operations reach from a new engine. *)
Lemma run_startedUnlessIdle (ops : list Op) : forall t : TimerManager,
  startedUnlessIdle t -> startedUnlessIdle (run ops t).
Proof.
  induction ops as [|o ops IH]; intros t H; simpl; auto.
  apply IH. now apply step_startedUnlessIdle.
Qed.

(** C1, where the code departs from the claim: in every state that the
    operations of the engine reach from a new engine, a rest period with
    [r > 0] seconds left that is paused and resumed at once is resumed in
    phase [WORK_SESSION], not [REST_PERIOD]; the [r] seconds are kept. *)
Theorem resume_of_paused_rest_is_work_session
    (s0 r0 : JsNum) (ops : list Op) (now r : Z) :
  currentState (context (run ops (newTimerManager s0 r0))) = REST_PERIOD ->
  remainingTime (context (run ops (newTimerManager s0 r0))) = Num r ->
  0 < r ->
  currentState (context (pause now (run ops (newTimerManager s0 r0)))) = PAUSED
  /\ currentState (context (resume (pause now (run ops (newTimerManager s0 r0)))))
     = WORK_SESSION
  /\ remainingTime (context (resume (pause now (run ops (newTimerManager s0 r0)))))
     = Num r.
Proof.
  intros Hs Hr Hpos.
  assert (Hst : isStarted (run ops (newTimerManager s0 r0)) = true).
  { apply (run_startedUnlessIdle ops _ (new_startedUnlessIdle s0 r0)).
    rewrite Hs. discriminate. }
  split; [|now apply pause_resume_rest_period].
  unfold pause. rewrite Hs. reflexivity.
Qed.

(** The rest period of the default five minutes, started at time 1000 and
    paused at time 2000 with its 300 seconds left. *)
Lemma resume_of_paused_rest_is_work_session_witness :
  currentState (context (pause 2000 (run [OpStartRest 1000]
                                       (newTimerManager (Num 25) (Num 5))))) = PAUSED
  /\ currentState (context (resume (pause 2000 (run [OpStartRest 1000]
                                       (newTimerManager (Num 25) (Num 5))))))
     = WORK_SESSION
  /\ remainingTime (context (resume (pause 2000 (run [OpStartRest 1000]
                                       (newTimerManager (Num 25) (Num 5))))))
     = Num 300.
Proof.
  apply (resume_of_paused_rest_is_work_session (Num 25) (Num 5)
           [OpStartRest 1000] 2000 300); [reflexivity | reflexivity | lia].
Defined.

(** With the countdown at 0, [resume] goes to [IDLE] and leaves the start
    time of the session in place. *)
Lemma resume_at_zero_keeps_sessionStartTime :
  currentState (context (resume (pause 60000 workingAtZero))) = IDLE
  /\ sessionStartTime (context (resume (pause 60000 workingAtZero))) = Some (Num 0).
Proof. split; reflexivity. Qed.

(** ** The durations *)

Lemma updateDurations_durations (s r : JsNum) (t : TimerManager) :
  durations (updateDurations s r t) = (s, r).
Proof.
  destruct t as [[st rem sd rd p sst] i l].
  unfold durations, updateDurations, handleTimerCompletion.
  break_branches; reflexivity.
Qed.

Lemma step_durations (t : TimerManager) (o : Op) :
  isUpdateDurations o = false -> durations (step t o) = durations t.
Proof.
  destruct t as [[st rem sd rd p sst] i l].
  destruct o; try discriminate; intros _; cbn [step];
    unfold durations, startSession, startRest, pause, resume, reset,
           tick, handleTimerCompletion;
    break_branches; reflexivity.
Qed.

Lemma contextInBounds_durations (t : TimerManager) :
  contextInBounds t = durationsInBounds (fst (durations t)) (snd (durations t)).
Proof. reflexivity. Qed.

Lemma step_contextInBounds (t : TimerManager) (o : Op) :
  contextInBounds t = true -> opInBounds o = true ->
  contextInBounds (step t o) = true.
Proof.
  intros Ht Ho. rewrite contextInBounds_durations.
  destruct (isUpdateDurations o) eqn:Hu.
  - destruct o; try discriminate. cbn [step].
    rewrite updateDurations_durations. exact Ho.
  - rewrite (step_durations t o Hu). exact Ht.
Qed.

Lemma run_contextInBounds (ops : list Op) : forall t : TimerManager,
  contextInBounds t = true -> forallb opInBounds ops = true ->
  contextInBounds (run ops t) = true.
Proof.
  induction ops as [|o ops IH]; intros t Ht Hops; simpl in *; auto.
  apply andb_prop in Hops. destruct Hops as [Ho Hops].
  apply IH; auto. now apply step_contextInBounds.
Qed.

(** The new engine has its durations in the bounds;
    [updateDurations(500, 0)] stores 500 and 0 as they are, neither
    clamped to 120 and 1 nor rejected, and the bounds no longer hold. *)
Lemma updateDurations_stores_out_of_range :
  contextInBounds timer25 = true
  /\ durations (step timer25 (OpUpdateDurations (Num 500) (Num 0))) = (Num 500, Num 0)
  /\ contextInBounds (step timer25 (OpUpdateDurations (Num 500) (Num 0))) = false.
Proof. repeat split. Qed.

(** C9, where the code departs from the claim: the engine checks no bound
    and clamps nothing. Durations outside 1..120 and 1..60, given to the
    constructor or to [updateDurations], are the durations of the engine
    from then on, as they were given. The test suites construct
    [new TimerManager(-1, 0)] and expect durations above 0. *)
Theorem out_of_range_durations_are_stored
    (s r : JsNum) (now : Z) (t : TimerManager) :
  durationsInBounds s r = false ->
  (durations (startSession now (newTimerManager s r)) = (s, r)
   /\ contextInBounds (startSession now (newTimerManager s r)) = false)
  /\ (durations (updateDurations s r t) = (s, r)
      /\ contextInBounds (updateDurations s r t) = false).
Proof.
  intro H. split; split.
  - reflexivity.
  - exact H.
  - apply updateDurations_durations.
  - rewrite contextInBounds_durations, updateDurations_durations. exact H.
Qed.

(** The engine of the test suites, [new TimerManager(-1, 0)], after
    [startSession], and the default engine after [updateDurations(-1, 0)]. *)
Lemma out_of_range_durations_are_stored_witness :
  (durations (startSession 0 (newTimerManager (Num (-1)) (Num 0)))
   = (Num (-1), Num 0)
   /\ contextInBounds (startSession 0 (newTimerManager (Num (-1)) (Num 0))) = false)
  /\ (durations (updateDurations (Num (-1)) (Num 0) timer25) = (Num (-1), Num 0)
      /\ contextInBounds (updateDurations (Num (-1)) (Num 0) timer25) = false).
Proof.
  apply (out_of_range_durations_are_stored (Num (-1)) (Num 0) 0 timer25).
  reflexivity.
Defined.

(** ** Changing the durations while a phase is under way *)

(** A one-minute work session is paused with its 60 seconds left; the session duration stays 1 and the rest duration goes
    from 1 to 2. Rescaled as the work session it is, the countdown would
    stay 60; the code takes it for a rest period, since 60 is not more than
    the old rest duration in seconds, and sets it to 120. *)
Lemma updateDurations_paused_work_rescaled_as_rest :
  currentState (context working1) = WORK_SESSION
  /\ remainingTime (context pausedWork1) = Num 60
  /\ currentState (context (updateDurations (Num 1) (Num 2) pausedWork1)) = PAUSED
  /\ remainingTime (context (updateDurations (Num 1) (Num 2) pausedWork1)) = Num 120
  /\ specRescaled 1 1 60 = 60.
Proof. repeat split. Qed.

Lemma rescaled_Num (old new rem : Z) :
  rescaled (Num old) (Num new) (Num rem) = Num (specRescaled old new rem).
Proof. reflexivity. Qed.

Lemma jneq_Num (a b : Z) : jneq (Num a) (Num b) = negb (a =? b).
Proof. reflexivity. Qed.

(** Rescaling in the running phases. With integer
    durations [s], [r] and countdown [rem], and new durations [s'], [r']:
    in phase [WORK_SESSION] with [s' <> s] the countdown becomes
    [max(0, s'*60 - (s*60 - rem))]; when that is 0 the completion handling
    runs at once (one completion tagged [WORK_SESSION], phase [IDLE],
    interval cleared), otherwise the session goes on; with [s' = s] the
    countdown stays. The same in phase [REST_PERIOD] with [r], [r'] and
    the tag [REST_PERIOD]. *)
Lemma updateDurations_running_rescales (t : TimerManager) (s r rem s' r' : Z) :
  sessionDuration (context t) = Num s ->
  restDuration (context t) = Num r ->
  remainingTime (context t) = Num rem ->
  (currentState (context t) = WORK_SESSION ->
     (s <> s' -> specRescaled s s' rem <> 0 ->
        currentState (context (updateDurations (Num s') (Num r') t)) = WORK_SESSION
        /\ remainingTime (context (updateDurations (Num s') (Num r') t))
           = Num (specRescaled s s' rem)
        /\ completions (emitted (updateDurations (Num s') (Num r') t))
           = completions (emitted t))
     /\ (s <> s' -> specRescaled s s' rem = 0 ->
        currentState (context (updateDurations (Num s') (Num r') t)) = IDLE
        /\ remainingTime (context (updateDurations (Num s') (Num r') t)) = Num 0
        /\ intervalId (updateDurations (Num s') (Num r') t) = false
        /\ completions (emitted (updateDurations (Num s') (Num r') t))
           = completions (emitted t) ++ [mkEventData WORK_SESSION (Num 0) true])
     /\ (s = s' ->
        currentState (context (updateDurations (Num s') (Num r') t)) = WORK_SESSION
        /\ remainingTime (context (updateDurations (Num s') (Num r') t)) = Num rem
        /\ completions (emitted (updateDurations (Num s') (Num r') t))
           = completions (emitted t)))
  /\ (currentState (context t) = REST_PERIOD ->
     (r <> r' -> specRescaled r r' rem <> 0 ->
        currentState (context (updateDurations (Num s') (Num r') t)) = REST_PERIOD
        /\ remainingTime (context (updateDurations (Num s') (Num r') t))
           = Num (specRescaled r r' rem)
        /\ completions (emitted (updateDurations (Num s') (Num r') t))
           = completions (emitted t))
     /\ (r <> r' -> specRescaled r r' rem = 0 ->
        currentState (context (updateDurations (Num s') (Num r') t)) = IDLE
        /\ remainingTime (context (updateDurations (Num s') (Num r') t)) = Num 0
        /\ intervalId (updateDurations (Num s') (Num r') t) = false
        /\ completions (emitted (updateDurations (Num s') (Num r') t))
           = completions (emitted t) ++ [mkEventData REST_PERIOD (Num 0) true])
     /\ (r = r' ->
        currentState (context (updateDurations (Num s') (Num r') t)) = REST_PERIOD
        /\ remainingTime (context (updateDurations (Num s') (Num r') t)) = Num rem
        /\ completions (emitted (updateDurations (Num s') (Num r') t))
           = completions (emitted t))).
Proof.
  destruct t as [[st remj sdj rdj p sst] i l].
  cbn [context sessionDuration restDuration remainingTime currentState emitted].
  intros -> -> ->.
  split; intros ->; unfold updateDurations;
    cbn [context sessionDuration restDuration remainingTime currentState
         setContext setRemainingTime intervalId emitted];
    rewrite ?rescaled_Num, ?jneq_Num.
  - split; [|split]; intros Hne.
    + intro Hm. apply Z.eqb_neq in Hne. rewrite Hne. cbn [negb].
      cbn [jeq]. apply Z.eqb_neq in Hm. rewrite Hm.
      cbn. rewrite completions_stateChange. auto.
    + intro Hm. apply Z.eqb_neq in Hne. rewrite Hne. cbn [negb].
      cbn [jeq]. rewrite Hm. cbn.
      rewrite !completions_app. cbn. rewrite !app_nil_r. auto.
    + subst s'. rewrite Z.eqb_refl. cbn. rewrite completions_stateChange. auto.
  - split; [|split]; intros Hne.
    + intro Hm. apply Z.eqb_neq in Hne. rewrite Hne. cbn [negb].
      cbn [jeq]. apply Z.eqb_neq in Hm. rewrite Hm.
      cbn. rewrite completions_stateChange. auto.
    + intro Hm. apply Z.eqb_neq in Hne. rewrite Hne. cbn [negb].
      cbn [jeq]. rewrite Hm. cbn.
      rewrite !completions_app. cbn. rewrite !app_nil_r. auto.
    + subst r'. rewrite Z.eqb_refl. cbn. rewrite completions_stateChange. auto.
Qed.

(** C6, where the code departs from the claim: what phase was paused is
    not tracked. A work session paused with no more on its countdown than
    the rest duration in seconds is taken for a rest period: when the
    session duration stays as it is and the rest duration changes from
    [r] to [r'], the countdown of the paused work session is rescaled with
    the rest durations, where the rescaling of the claim, by the unchanged
    session duration, leaves it as it is. *)
Theorem updateDurations_takes_paused_work_for_rest
    (t : TimerManager) (now s r rem r' : Z) :
  currentState (context t) = WORK_SESSION ->
  sessionDuration (context t) = Num s ->
  restDuration (context t) = Num r ->
  remainingTime (context t) = Num rem ->
  0 <= rem <= r * 60 ->
  r <> r' ->
  currentState (context (updateDurations (Num s) (Num r') (pause now t))) = PAUSED
  /\ remainingTime (context (updateDurations (Num s) (Num r') (pause now t)))
     = Num (specRescaled r r' rem)
  /\ specRescaled s s rem = rem.
Proof.
  destruct t as [[st remj sdj rdj p sst] i l].
  cbn [context sessionDuration restDuration remainingTime currentState].
  intros -> -> -> -> Hrem Hne.
  unfold pause, updateDurations.
  cbn [context sessionDuration restDuration remainingTime currentState
       setContext setRemainingTime stopTimer emitStateChange intervalId emitted
       jgt jlt jmul].
  assert (Hlt : (r * 60 <? rem) = false) by (apply Z.ltb_ge; lia).
  rewrite Hlt. cbn [andb negb]. rewrite jneq_Num.
  apply Z.eqb_neq in Hne. rewrite Hne. cbn [negb].
  cbn [context remainingTime currentState setContext setRemainingTime].
  rewrite rescaled_Num. repeat split. unfold specRescaled. lia.
Qed.

(** The one-minute work session paused with its 60 seconds left, when the
    rest duration goes from 1 to 2 minutes: the countdown becomes 120. *)
Lemma updateDurations_takes_paused_work_for_rest_witness :
  currentState (context (updateDurations (Num 1) (Num 2) (pause 0 working1))) = PAUSED
  /\ remainingTime (context (updateDurations (Num 1) (Num 2) (pause 0 working1)))
     = Num (specRescaled 1 2 60)
  /\ specRescaled 1 1 60 = 60.
Proof.
  apply (updateDurations_takes_paused_work_for_rest working1 0 1 1 60 2);
    try reflexivity; lia.
Defined.

(** At a 25-minute work session, 120 seconds in, when the session duration
    becomes 2 minutes: the rescaled countdown is 0 and the session
    completes at once. *)
Lemma updateDurations_running_rescales_example :
  currentState (context (updateDurations (Num 2) (Num 5) (ticks 120 working25))) = IDLE
  /\ remainingTime (context (updateDurations (Num 2) (Num 5) (ticks 120 working25))) = Num 0
  /\ intervalId (updateDurations (Num 2) (Num 5) (ticks 120 working25)) = false
  /\ completions (emitted (updateDurations (Num 2) (Num 5) (ticks 120 working25)))
     = completions (emitted (ticks 120 working25))
       ++ [mkEventData WORK_SESSION (Num 0) true].
Proof.
  destruct (updateDurations_running_rescales (ticks 120 working25) 25 5 1380 2 5
              eq_refl eq_refl eq_refl) as (Hwork & _).
  destruct (Hwork eq_refl) as (_ & Hzero & _).
  apply Hzero; [discriminate | reflexivity].
Qed.

(** * Properties of the persistence gateway *)

Section Restore.

Variable Date_parse : string -> JsNum.

Lemma isValidPersistedState_truthy (v : JsValue) :
  isValidPersistedState Date_parse v = true -> truthy v = true.
Proof.
  unfold isValidPersistedState. destruct (truthy v); [reflexivity|].
  simpl. discriminate.
Qed.

(** What validation has checked of a record that it accepts. *)
Lemma isValidPersistedState_checked (v : JsValue) :
  isValidPersistedState Date_parse v = true ->
  isTimerState (getProp "currentState" v) = true
  /\ (exists rem, getProp "remainingTime" v = JNumber rem /\ jlt rem (Num 0) = false)
  /\ (exists sd, getProp "sessionDuration" v = JNumber sd
                 /\ jlt sd (Num 1) = false /\ jgt sd (Num 120) = false)
  /\ (exists rd, getProp "restDuration" v = JNumber rd
                 /\ jlt rd (Num 1) = false /\ jgt rd (Num 60) = false).
Proof.
  unfold isValidPersistedState.
  destruct (negb (truthy v) || negb (isObjectType v)); [discriminate|].
  destruct (negb (forallb _ requiredProps)); [discriminate|].
  destruct (isTimerState (getProp "currentState" v)); [|discriminate].
  cbn [negb].
  destruct (getProp "remainingTime" v) as [| | |rem| | |]; try discriminate.
  cbn [isNumberType negb orb asNumber].
  destruct (jlt rem (Num 0)) eqn:Hrem; [discriminate|].
  destruct (getProp "sessionDuration" v) as [| | |sd| | |]; try discriminate.
  cbn [isNumberType negb orb asNumber].
  destruct (jlt sd (Num 1)) eqn:Hsd1; [discriminate|].
  destruct (jgt sd (Num 120)) eqn:Hsd2; [discriminate|]. cbn [orb].
  destruct (getProp "restDuration" v) as [| | |rd| | |]; try discriminate.
  cbn [isNumberType negb orb asNumber].
  destruct (jlt rd (Num 1)) eqn:Hrd1; [discriminate|].
  destruct (jgt rd (Num 60)) eqn:Hrd2; [discriminate|].
  intros _. repeat split; eauto.
Qed.

Lemma isState_tag (a b : TimerState) :
  isState (JString (tag a)) b = TimerState_eqb a b.
Proof. destruct a, b; reflexivity. Qed.

Lemma asTimerState_tag (a : TimerState) : asTimerState (JString (tag a)) = a.
Proof. destruct a; reflexivity. Qed.

(** C2: a valid record of a work session or a rest period whose countdown
    [remaining] is not more than the seconds
    [elapsed = floor((now - lastActiveTime) / 1000)] since it was saved is
    restored, the record left in place, as follows. From a work session,
    with [overflow = elapsed - remaining]: a rest period with
    [rest * 60 - overflow] seconds left when [overflow < rest * 60], and
    the idle state with 0 seconds otherwise. From a rest period: the idle
    state with 0 seconds. *)
Theorem restoreState_expired
    (now : Z) (persistedState : JsValue) (phase : TimerState)
    (remaining rest last : Z) :
  isValidPersistedState Date_parse persistedState = true ->
  getProp "currentState" persistedState = JString (tag phase) ->
  phase = WORK_SESSION \/ phase = REST_PERIOD ->
  getProp "remainingTime" persistedState = JNumber (Num remaining) ->
  getProp "restDuration" persistedState = JNumber (Num rest) ->
  newDate Date_parse (getProp "lastActiveTime" persistedState) = Num last ->
  remaining <= (now - last) / 1000 ->
  exists c : TimerContext,
    restoreState Date_parse now (Some persistedState) = (Some c, Some persistedState)
    /\ (phase = WORK_SESSION ->
        (now - last) / 1000 - remaining < rest * 60 ->
        currentState c = REST_PERIOD
        /\ remainingTime c = Num (rest * 60 - ((now - last) / 1000 - remaining)))
    /\ (phase = WORK_SESSION ->
        rest * 60 <= (now - last) / 1000 - remaining ->
        currentState c = IDLE /\ remainingTime c = Num 0)
    /\ (phase = REST_PERIOD ->
        currentState c = IDLE /\ remainingTime c = Num 0).
Proof.
  intros Hv Hcs Hph Hrem Hrest Hlast Hle.
  unfold restoreState.
  rewrite (isValidPersistedState_truthy _ Hv), Hv. cbn [negb].
  rewrite Hlast, Hcs, Hrem, !isState_tag.
  cbn [asNumber jsub jfloordiv jmax jle].
  assert (Hexp : (Z.max 0 (remaining - (now - last) / 1000) <=? 0) = true)
    by (apply Z.leb_le; lia).
  rewrite Hexp.
  unfold handleExpiredSession. rewrite Hcs, Hrem, Hrest, !isState_tag.
  cbn [asNumber jsub jmul jge jle].
  destruct Hph as [-> | ->]; cbn [TimerState_eqb orb].
  - destruct (Z.leb_spec (rest * 60) ((now - last) / 1000 - remaining)) as [Hge | Hlt].
    + eexists. split; [reflexivity|].
      split; [intros _ H; lia|]. split; [auto | discriminate].
    + eexists. split; [reflexivity|].
      split; [auto|]. split; [intros _ H; lia | discriminate].
  - eexists. split; [reflexivity|].
    split; [discriminate|]. split; [discriminate | auto].
Qed.

(** ** Records that are absent or rejected *)

Lemma restoreState_no_record (now : Z) :
  restoreState Date_parse now None = (None, None).
Proof. reflexivity. Qed.

(** A record that validation rejects gives [null], now and at every later
    call; it is erased, unless it is a falsy value, which [restoreState]
    gives up on before validating. *)
Lemma restoreState_invalid (now : Z) (v : JsValue) :
  isValidPersistedState Date_parse v = false ->
  fst (restoreState Date_parse now (Some v)) = None
  /\ (truthy v = true -> snd (restoreState Date_parse now (Some v)) = None)
  /\ (forall now' : Z,
        fst (restoreState Date_parse now'
               (snd (restoreState Date_parse now (Some v)))) = None).
Proof.
  intro Hv. unfold restoreState at 1 2 4.
  destruct (truthy v) eqn:Ht; cbn [negb]; rewrite ?Hv; cbn [negb fst snd].
  - repeat split.
  - repeat split; [discriminate|]. intro now'.
    unfold restoreState. rewrite Ht. reflexivity.
Qed.

Lemma isValidPersistedState_rejects_phase (v : JsValue) :
  isTimerState (getProp "currentState" v) = false ->
  isValidPersistedState Date_parse v = false.
Proof.
  intro H. destruct (isValidPersistedState Date_parse v) eqn:Hv; [|reflexivity].
  apply isValidPersistedState_checked in Hv. destruct Hv as (Hs & _). congruence.
Qed.

Lemma isValidPersistedState_rejects_remainingTime (v : JsValue) :
  (forall n, getProp "remainingTime" v = JNumber n -> jlt n (Num 0) = true) ->
  isValidPersistedState Date_parse v = false.
Proof.
  intro H. destruct (isValidPersistedState Date_parse v) eqn:Hv; [|reflexivity].
  apply isValidPersistedState_checked in Hv.
  destruct Hv as (_ & (n & Hn & Hlt) & _). rewrite (H n Hn) in Hlt. discriminate.
Qed.

Lemma isValidPersistedState_rejects_sessionDuration (v : JsValue) :
  (forall n, getProp "sessionDuration" v = JNumber n ->
             jlt n (Num 1) = true \/ jgt n (Num 120) = true) ->
  isValidPersistedState Date_parse v = false.
Proof.
  intro H. destruct (isValidPersistedState Date_parse v) eqn:Hv; [|reflexivity].
  apply isValidPersistedState_checked in Hv.
  destruct Hv as (_ & _ & (n & Hn & Hlt & Hgt) & _).
  destruct (H n Hn); congruence.
Qed.

Lemma isValidPersistedState_rejects_restDuration (v : JsValue) :
  (forall n, getProp "restDuration" v = JNumber n ->
             jlt n (Num 1) = true \/ jgt n (Num 60) = true) ->
  isValidPersistedState Date_parse v = false.
Proof.
  intro H. destruct (isValidPersistedState Date_parse v) eqn:Hv; [|reflexivity].
  apply isValidPersistedState_checked in Hv.
  destruct Hv as (_ & _ & _ & (n & Hn & Hlt & Hgt)).
  destruct (H n Hn); congruence.
Qed.

(** C5, where the code departs from the claim: a record that is well
    formed but for its [lastActiveTime], a string [s], passes validation
    whatever [Date.parse] makes of [s], so also when [s] is no time stamp
    at all. An idle record of this kind is restored as the idle state
    rather than [null], and it is left in the store. *)
Theorem restoreState_accepts_any_lastActiveTime (now : Z) (s : string) :
  isValidPersistedState Date_parse (storedIdleStamped s) = true
  /\ restoreState Date_parse now (Some (storedIdleStamped s))
     = (Some (mkContext IDLE (Num 0) (Num 25) (Num 5) None None),
        Some (storedIdleStamped s)).
Proof. split; reflexivity. Qed.

(** The same for a running session: with a [lastActiveTime] that does not
    parse, the record is accepted and the countdown restored is [NaN]. *)
Lemma restoreState_running_unparsable (now : Z) (s : string) :
  Date_parse s = NaN ->
  restoreState Date_parse now (Some (storedWorkStamped s))
  = (Some (mkContext WORK_SESSION NaN (Num 25) (Num 5) None None),
     Some (storedWorkStamped s)).
Proof.
  intro Hs. unfold restoreState. cbn. rewrite Hs. reflexivity.
Qed.

(** ** Records of the idle and paused phases *)

(** C8, amended: a valid record whose phase is [IDLE] or [PAUSED] is
    restored, at whatever time [now], with the stored phase, countdown
    and durations and with the stored [sessionStartTime] (absent when the
    stored one is); the record is left as it is. [pausedAt] is not part
    of a record: it is absent for [IDLE] and is the time of the call,
    [now], for [PAUSED]. *)
Theorem restoreState_idle_or_paused
    (now : Z) (persistedState : JsValue) (phase : TimerState) :
  isValidPersistedState Date_parse persistedState = true ->
  getProp "currentState" persistedState = JString (tag phase) ->
  phase = IDLE \/ phase = PAUSED ->
  exists rem sd rd : JsNum,
    getProp "remainingTime" persistedState = JNumber rem
    /\ getProp "sessionDuration" persistedState = JNumber sd
    /\ getProp "restDuration" persistedState = JNumber rd
    /\ restoreState Date_parse now (Some persistedState)
       = (Some (mkContext phase rem sd rd
                  (if TimerState_eqb phase PAUSED then Some (Num now) else None)
                  (optionalDate Date_parse
                     (getProp "sessionStartTime" persistedState))),
          Some persistedState).
Proof.
  intros Hv Hcs Hph.
  destruct (isValidPersistedState_checked _ Hv)
    as (_ & (rem & Hrem & _) & (sd & Hsd & _) & (rd & Hrd & _)).
  exists rem, sd, rd. repeat (split; [assumption|]).
  unfold restoreState.
  rewrite (isValidPersistedState_truthy _ Hv), Hv. cbn [negb].
  unfold createTimerContextFromPersisted.
  rewrite Hcs, Hrem, Hsd, Hrd, !isState_tag, asTimerState_tag.
  destruct Hph as [-> | ->]; reflexivity.
Qed.

(** ** Saving, then restoring at once *)

(** C7, amended: a context with durations in the bounds and a countdown
    that is not negative, and positive when the phase is [WORK_SESSION]
    or [REST_PERIOD], is restored, when no time has passed since it was
    saved, with the phase, the countdown and the two durations it was
    saved with. *)
Theorem save_then_restore
    (now : Z) (c : TimerContext) (sessionCount totalWorkTime : JsNum)
    (st : Store) (rem sd rd : Z) :
  remainingTime c = Num rem ->
  sessionDuration c = Num sd ->
  restDuration c = Num rd ->
  1 <= sd <= 120 ->
  1 <= rd <= 60 ->
  0 <= rem ->
  (currentState c = WORK_SESSION \/ currentState c = REST_PERIOD -> 0 < rem) ->
  exists c' : TimerContext,
    fst (restoreState Date_parse now (saveState now c sessionCount totalWorkTime st))
    = Some c'
    /\ currentState c' = currentState c
    /\ remainingTime c' = remainingTime c
    /\ sessionDuration c' = sessionDuration c
    /\ restDuration c' = restDuration c.
Proof.
  destruct c as [phase remj sdj rdj p sst].
  cbn [remainingTime sessionDuration restDuration currentState].
  intros -> -> -> Hsd Hrd Hrem Hrun.
  assert (Hvalid : isValidPersistedState Date_parse
            (JObject
               [("currentState", JString (tag phase));
                ("remainingTime", JNumber (Num rem));
                ("sessionStartTime", dateValue sst);
                ("lastActiveTime", JDate (Num now));
                ("sessionCount", JNumber sessionCount);
                ("totalWorkTime", JNumber totalWorkTime);
                ("sessionDuration", JNumber (Num sd));
                ("restDuration", JNumber (Num rd))]) = true).
  { unfold isValidPersistedState.
    cbn [truthy isObjectType negb orb requiredProps forallb hasProp lookup
         String.eqb Ascii.eqb Bool.eqb andb getProp isNumberType asNumber
         jlt jgt].
    assert (H1 : isTimerState (JString (tag phase)) = true)
      by (destruct phase; reflexivity).
    rewrite H1. cbn [negb].
    repeat match goal with
           | |- context [?a <? ?b] => destruct (Z.ltb_spec a b); [lia|]
           end.
    destruct sst; reflexivity. }
  unfold saveState, restoreState.
  cbn [currentState remainingTime sessionDuration restDuration sessionStartTime].
  rewrite Hvalid.
  cbn [truthy negb getProp lookup String.eqb Ascii.eqb Bool.eqb newDate
       asNumber jsub jfloordiv jmax jle].
  rewrite !isState_tag, asTimerState_tag, Z.sub_diag.
  change (0 / 1000) with 0. rewrite Z.sub_0_r.
  unfold createTimerContextFromPersisted.
  cbn [getProp lookup String.eqb Ascii.eqb Bool.eqb asNumber].
  rewrite asTimerState_tag.
  destruct phase; cbn [TimerState_eqb orb fst].
  - eexists; split; [reflexivity|]; cbn; auto.
  - assert (Hpos : 0 < rem) by auto.
    destruct (Z.leb_spec (Z.max 0 rem) 0); [lia|].
    eexists; split; [reflexivity|]; cbn. rewrite Z.max_r by lia. auto.
  - assert (Hpos : 0 < rem) by auto.
    destruct (Z.leb_spec (Z.max 0 rem) 0); [lia|].
    eexists; split; [reflexivity|]; cbn. rewrite Z.max_r by lia. auto.
  - eexists; split; [reflexivity|]; cbn; auto.
Qed.

End Restore.

(** ** The properties at the records of the examples *)

(** The record of the test suite, restored 27 minutes after it was saved:
    the 25 minutes of work are over, 120 seconds of the rest have passed
    and 180 are left. *)
Lemma restoreState_expired_witness :
  exists c : TimerContext,
    restoreState parseNothing 1620000 (Some storedWork) = (Some c, Some storedWork)
    /\ currentState c = REST_PERIOD
    /\ remainingTime c = Num 180.
Proof.
  destruct (restoreState_expired parseNothing 1620000 storedWork WORK_SESSION 1500 5 0)
    as (c & Hc & Hrest & _).
  - reflexivity.
  - reflexivity.
  - left. reflexivity.
  - reflexivity.
  - reflexivity.
  - reflexivity.
  - vm_compute. discriminate.
  - exists c. split; [exact Hc|]. apply Hrest; reflexivity.
Defined.

(** C7 as stated fails: the one-minute work session that sixty ticks have
    brought to 0 is an engine state with durations in the bounds; saved
    and restored at the same instant, it comes back as a rest period with
    60 seconds left. *)
Lemma save_then_restore_at_zero :
  currentState (context workingAtZero) = WORK_SESSION
  /\ remainingTime (context workingAtZero) = Num 0
  /\ contextInBounds workingAtZero = true
  /\ fst (restoreState parseNothing 60000
            (saveState 60000 (context workingAtZero) (Num 0) (Num 0) None))
     = Some (mkContext REST_PERIOD (Num 60) (Num 1) (Num 1) None (Some (Num 60000))).
Proof. repeat split. Qed.

(** A running 25-minute work session, saved and restored at time 2000. *)
Lemma save_then_restore_witness :
  exists c' : TimerContext,
    fst (restoreState parseNothing 2000
           (saveState 2000 (context working25) (Num 0) (Num 0) None)) = Some c'
    /\ currentState c' = WORK_SESSION
    /\ remainingTime c' = Num 1500
    /\ sessionDuration c' = Num 25
    /\ restDuration c' = Num 5.
Proof.
  apply (save_then_restore parseNothing 2000 (context working25) (Num 0) (Num 0)
           None 1500 25 5); try reflexivity; try lia.
Defined.

(** C8 as stated fails: the paused context has its [pausedAt], 2000, which
    the record does not hold; restored one minute later, the state has the
    time of the call as [pausedAt], so it is not the state that was saved,
    and it is not the state that a call at another time returns. *)
Lemma restoreState_paused_stamps_call_time :
  saveState 2000 pausedContext (Num 0) (Num 0) None = Some storedPaused
  /\ pausedAt pausedContext = Some (Num 2000)
  /\ fst (restoreState parseNothing 62000 (Some storedPaused))
     = Some (mkContext PAUSED (Num 1500) (Num 25) (Num 5)
               (Some (Num 62000)) (Some (Num 1000)))
  /\ fst (restoreState parseNothing 62000 (Some storedPaused)) <> Some pausedContext
  /\ fst (restoreState parseNothing 62000 (Some storedPaused))
     <> fst (restoreState parseNothing 122000 (Some storedPaused)).
Proof.
  repeat split; intro H; vm_compute in H; discriminate H.
Qed.

(** The paused record, restored one minute after it was saved. *)
Lemma restoreState_idle_or_paused_witness :
  exists rem sd rd : JsNum,
    getProp "remainingTime" storedPaused = JNumber rem
    /\ getProp "sessionDuration" storedPaused = JNumber sd
    /\ getProp "restDuration" storedPaused = JNumber rd
    /\ restoreState parseNothing 62000 (Some storedPaused)
       = (Some (mkContext PAUSED rem sd rd (Some (Num 62000))
                  (optionalDate parseNothing (getProp "sessionStartTime" storedPaused))),
          Some storedPaused).
Proof.
  apply (restoreState_idle_or_paused parseNothing 62000 storedPaused PAUSED).
  - reflexivity.
  - reflexivity.
  - right. reflexivity.
Defined.

(** * Further properties of the timer engine *)

(** Unfolding the operations of the engine in a goal about [step]. *)
Ltac unfold_step :=
  cbn [step];
  unfold startSession, startRest, pause, resume, reset, updateDurations,
         tick, handleTimerCompletion.

Lemma step_interval_iff_running (t : TimerManager) (o : Op) :
  intervalId t = isRunning t -> intervalId (step t o) = isRunning (step t o).
Proof.
  unfold isRunning. destruct t as [[s rem sd rd p st] i l].
  cbn [context currentState intervalId]. intro H.
  destruct o; unfold_step; break_branches; subst;
    try reflexivity; try discriminate; auto.
Qed.

(** X1: in every state that the operations reach from a new engine, a tick
    callback is scheduled exactly when the phase is [WORK_SESSION] or
    [REST_PERIOD]. *)
Theorem interval_iff_running (s r : JsNum) (ops : list Op) :
  intervalId (run ops (newTimerManager s r))
  = isRunning (run ops (newTimerManager s r)).
Proof.
  assert (H : forall t, intervalId t = isRunning t ->
                        intervalId (run ops t) = isRunning (run ops t)).
  { induction ops as [|o ops IH]; intros t Ht; simpl; auto.
    apply IH. now apply step_interval_iff_running. }
  apply H. reflexivity.
Qed.

Lemma step_pausedAt_iff_paused (t : TimerManager) (o : Op) :
  hasPausedAt t = isPaused t -> hasPausedAt (step t o) = isPaused (step t o).
Proof.
  unfold hasPausedAt, isPaused. destruct t as [[s rem sd rd p st] i l].
  cbn [context currentState pausedAt]. intro H.
  destruct o; unfold_step; break_branches; subst;
    try reflexivity; try discriminate; auto.
Qed.

(** X2: in every state that the operations reach from a new engine,
    [pausedAt] is set exactly when the phase is [PAUSED]. *)
Theorem pausedAt_iff_paused (s r : JsNum) (ops : list Op) :
  hasPausedAt (run ops (newTimerManager s r))
  = isPaused (run ops (newTimerManager s r)).
Proof.
  assert (H : forall t, hasPausedAt t = isPaused t ->
                        hasPausedAt (run ops t) = isPaused (run ops t)).
  { induction ops as [|o ops IH]; intros t Ht; simpl; auto.
    apply IH. now apply step_pausedAt_iff_paused. }
  apply H. reflexivity.
Qed.

(** Closing the side conditions of [countsDown]. *)
Ltac count_done :=
  solve [repeat split; intros; subst; auto; try congruence;
         try match goal with H : ?x = ?x -> _ |- _ => specialize (H eq_refl) end;
         try lia].

Lemma step_countsDown (t : TimerManager) (o : Op) :
  countsDown t -> opNonNegative o = true -> countsDown (step t o).
Proof.
  unfold countsDown. destruct t as [[st rem sd rd p sst] i l].
  cbn [context currentState remainingTime sessionDuration restDuration].
  intros (r & s & d & -> & -> & -> & Hr & Hs & Hd & Hidle) Ho.
  destruct o as [now|now|now| | |s' d'|]; cbn [opNonNegative] in Ho.
  - unfold_step. cbn. exists (s * 60), s, d.
    count_done.
  - unfold_step. cbn. exists (d * 60), s, d.
    count_done.
  - unfold_step. destruct st; cbn; exists r, s, d; count_done.
  - unfold_step. cbn [context currentState pausedAt remainingTime].
    destruct st; try (exists r, s, d; count_done).
    destruct p; [|exists r, s, d; count_done].
    cbn [jgt jlt]. destruct (Z.ltb_spec 0 r); cbn.
    + destruct sst; cbn; exists r, s, d; count_done.
    + exists r, s, d. count_done.
  - unfold_step. cbn. exists 0, s, d. count_done.
  - apply andb_prop in Ho. destruct Ho as [Hs' Hd'].
    destruct s' as [s'|]; [|discriminate]. destruct d' as [d'|]; [|discriminate].
    cbn [isNonNegative] in Hs', Hd'.
    apply Z.leb_le in Hs'. apply Z.leb_le in Hd'.
    unfold_step.
    cbn [context currentState remainingTime sessionDuration restDuration
         setContext setRemainingTime].
    rewrite ?rescaled_Num, ?jneq_Num.
    destruct st.
    + exists r, s', d'. count_done.
    + destruct (Z.eqb_spec s s'); cbn [negb].
      * cbn. exists r, s', d'. count_done.
      * cbn [context remainingTime jeq].
        destruct (Z.eqb_spec (specRescaled s s' r) 0); cbn.
        -- exists 0, s', d'. count_done.
        -- exists (specRescaled s s' r), s', d'. unfold specRescaled in *.
           count_done.
    + destruct (Z.eqb_spec d d'); cbn [negb].
      * cbn. exists r, s', d'. count_done.
      * cbn [context remainingTime jeq].
        destruct (Z.eqb_spec (specRescaled d d' r) 0); cbn.
        -- exists 0, s', d'. count_done.
        -- exists (specRescaled d d' r), s', d'. unfold specRescaled in *.
           count_done.
    + cbn [context remainingTime jgt jlt jmul].
      destruct (d * 60 <? r); destruct (Z.eqb_spec s s'); destruct (Z.eqb_spec d d');
        cbn; rewrite ?rescaled_Num;
        first [ exists r, s', d'; count_done
              | exists (specRescaled s s' r), s', d'; unfold specRescaled;
                count_done
              | exists (specRescaled d d' r), s', d'; unfold specRescaled;
                count_done ].
  - cbn [step intervalId]. destruct i; [|exists r, s, d; count_done].
    unfold tick. cbn [context remainingTime jgt jlt].
    destruct (Z.ltb_spec 0 r); cbn.
    + exists (r - 1), s, d. count_done.
    + unfold handleTimerCompletion. cbn.
      destruct st; cbn; first [ exists 0, s, d; count_done
                              | exists r, s, d; count_done ].
Qed.

Lemma run_countsDown (ops : list Op) : forall t : TimerManager,
  countsDown t -> forallb opNonNegative ops = true -> countsDown (run ops t).
Proof.
  induction ops as [|o ops IH]; intros t Ht Hops; simpl in *; auto.
  apply andb_prop in Hops. destruct Hops as [Ho Hops].
  apply IH; auto. now apply step_countsDown.
Qed.

Lemma new_countsDown (s d : Z) :
  0 <= s -> 0 <= d -> countsDown (newTimerManager (Num s) (Num d)).
Proof. intros Hs Hd. exists 0, s, d. repeat split; auto. lia. Qed.

(** X3: when the constructor and every call of [updateDurations] are given
    integer durations that are not negative, the countdown of every state
    that the operations reach is an integer that is not negative, and it
    is 0 whenever the phase is [IDLE]. *)
Theorem remainingTime_never_negative (s d : Z) (ops : list Op) :
  0 <= s -> 0 <= d -> forallb opNonNegative ops = true ->
  exists r : Z,
    remainingTime (context (run ops (newTimerManager (Num s) (Num d)))) = Num r
    /\ 0 <= r
    /\ (currentState (context (run ops (newTimerManager (Num s) (Num d)))) = IDLE
        -> r = 0).
Proof.
  intros Hs Hd Hops.
  destruct (run_countsDown ops _ (new_countsDown s d Hs Hd) Hops)
    as (r & _ & _ & Hr & _ & _ & Hpos & _ & _ & Hidle).
  exists r. auto.
Qed.

(** A session that is shortened below the time already spent while it
    runs, then a reset. *)
Lemma remainingTime_never_negative_witness :
  exists r : Z,
    remainingTime (context (run [OpStartSession 0; OpInterval; OpInterval;
                                 OpUpdateDurations (Num 0) (Num 5); OpStartRest 9000;
                                 OpPause 9500]
                                (newTimerManager (Num 25) (Num 5)))) = Num r
    /\ 0 <= r
    /\ (currentState (context (run [OpStartSession 0; OpInterval; OpInterval;
                                    OpUpdateDurations (Num 0) (Num 5); OpStartRest 9000;
                                    OpPause 9500]
                                   (newTimerManager (Num 25) (Num 5)))) = IDLE
        -> r = 0).
Proof.
  apply (remainingTime_never_negative 25 5
           [OpStartSession 0; OpInterval; OpInterval;
            OpUpdateDurations (Num 0) (Num 5); OpStartRest 9000; OpPause 9500]);
    [lia | lia | reflexivity].
Defined.

(** ** What is emitted *)

(** X4: an operation emits at most one completion notification. None is
    emitted by [startSession], [startRest], [pause], [resume] or [reset].
    When the interval or [updateDurations] emits one, the phase before was
    [WORK_SESSION] or [REST_PERIOD], the notification is tagged with that
    phase and marked as a transition, and the engine is left in phase
    [IDLE] with the countdown at 0 and no tick callback scheduled. *)
Theorem step_completion (t : TimerManager) (o : Op) :
  completions (emitted (step t o)) = completions (emitted t)
  \/ (isRunning t = true
      /\ (o = OpInterval \/ isUpdateDurations o = true)
      /\ currentState (context (step t o)) = IDLE
      /\ remainingTime (context (step t o)) = Num 0
      /\ intervalId (step t o) = false
      /\ exists rem : JsNum,
           completions (emitted (step t o))
           = completions (emitted t)
             ++ [mkEventData (currentState (context t)) rem true]).
Proof.
  unfold isRunning. destruct t as [[s rem sd rd p st] i l].
  cbn [context currentState emitted].
  destruct o; unfold_step; break_branches;
    rewrite ?completions_app; cbn [completions flat_map app];
    rewrite ?app_nil_r;
    first [ left; reflexivity
          | right; repeat split; auto; eexists; reflexivity ].
Qed.

(** ** Operations in sequence *)

Lemma step_sameState (t t' : TimerManager) (o : Op) :
  sameState t t' -> sameState (step t o) (step t' o).
Proof.
  unfold sameState. destruct t as [c i l], t' as [c' i' l'].
  cbn [context intervalId]. intros [<- <-].
  destruct c as [s rem sd rd p st].
  destruct o; unfold_step; break_branches; split; congruence.
Qed.

Lemma run_sameState (ops : list Op) : forall t t' : TimerManager,
  sameState t t' -> sameState (run ops t) (run ops t').
Proof.
  induction ops as [|o ops IH]; intros t t' H; simpl; auto.
  apply IH. now apply step_sameState.
Qed.

(** X5: [reset] gives back a new engine. From any state whatever, after
    [reset] every sequence of operations leads to the context and the
    interval that it leads to from an engine just constructed with the
    durations at hand. *)
Theorem reset_is_a_new_engine (t : TimerManager) (ops : list Op) :
  context (run ops (reset t))
  = context (run ops (newTimerManager (sessionDuration (context t))
                                      (restDuration (context t))))
  /\ intervalId (run ops (reset t))
     = intervalId (run ops (newTimerManager (sessionDuration (context t))
                                            (restDuration (context t)))).
Proof.
  apply run_sameState. split; reflexivity.
Qed.

(** X6: pausing twice is pausing once, the time of the first pause is
    kept; resuming twice is resuming once. *)
Theorem pause_and_resume_idempotent (now now' : Z) (t : TimerManager) :
  pause now' (pause now t) = pause now t
  /\ resume (resume t) = resume t.
Proof.
  destruct t as [[s rem sd rd p st] i l]. split.
  - unfold pause. cbn. destruct s; reflexivity.
  - unfold resume at 2 3.
    cbn [context currentState pausedAt remainingTime sessionStartTime].
    destruct s; try reflexivity.
    destruct p; [|reflexivity].
    destruct (jgt rem (Num 0)); [destruct st|]; reflexivity.
Qed.

(** ** The command of the status bar *)


(** * Properties of the configured durations *)

Lemma qlt_true (a b : Q) : qlt a b = true -> (a < b)%Q.
Proof.
  unfold qlt. intro H. apply Qnot_le_lt. intro Hle.
  apply Qle_bool_iff in Hle. rewrite Hle in H. discriminate H.
Qed.

Lemma qlt_false (a b : Q) : qlt a b = false -> (b <= a)%Q.
Proof.
  unfold qlt. intro H. apply Qle_bool_iff.
  destruct (Qle_bool b a); [reflexivity | discriminate H].
Qed.

(** The integer part of a number below, resp. not below, an integer. *)
Lemma Qfloor_below (q : Q) (z : Z) : (q < inject_Z z)%Q -> Qfloor q < z.
Proof.
  intro H. rewrite Zlt_Qlt.
  apply Qle_lt_trans with q; [apply Qfloor_le | exact H].
Qed.

Lemma Qfloor_not_below (q : Q) (z : Z) : (inject_Z z <= q)%Q -> z <= Qfloor q.
Proof.
  intro H. rewrite <- (Qfloor_Z z). now apply Qfloor_resp_le.
Qed.

(** What the two validators return for a finite number, with the bound
    [hi] of each. *)
Lemma validate_finite (hi : Z) (q : Q) :
  1 <= hi ->
  (if qlt q (inject_Z 1) then Num 1
   else if qlt (inject_Z hi) q then Num hi
   else Num (Qfloor q))
  = Num (Z.max 1 (Z.min hi (Qfloor q))).
Proof.
  intro Hhi.
  destruct (qlt q (inject_Z 1)) eqn:H1.
  - apply qlt_true in H1. apply Qfloor_below in H1. f_equal. lia.
  - apply qlt_false in H1. apply Qfloor_not_below in H1.
    destruct (qlt (inject_Z hi) q) eqn:H2.
    + apply qlt_true in H2. apply Qlt_le_weak in H2.
      apply Qfloor_not_below in H2. f_equal. lia.
    + apply qlt_false in H2.
      assert (Qfloor q <= hi).
      { rewrite <- (Qfloor_Z hi). now apply Qfloor_resp_le. }
      f_equal. lia.
Qed.

Lemma validateSessionDurationInternal_bounds (v : SettingValue) :
  exists z : Z, validateSessionDurationInternal v = Num z /\ 1 <= z <= 120.
Proof.
  destruct v as [q|[|]| |]; cbn [validateSessionDurationInternal];
    try (eexists; split; [reflexivity | unfold defaultSessionDuration; lia]).
  rewrite (validate_finite 120 q) by lia. eexists. split; [reflexivity | lia].
Qed.

Lemma validateRestDurationInternal_bounds (v : SettingValue) :
  exists z : Z, validateRestDurationInternal v = Num z /\ 1 <= z <= 60.
Proof.
  destruct v as [q|[|]| |]; cbn [validateRestDurationInternal];
    try (eexists; split; [reflexivity | unfold defaultRestDuration; lia]).
  rewrite (validate_finite 60 q) by lia. eexists. split; [reflexivity | lia].
Qed.

Lemma validated_durationsInBounds (s r : SettingValue) :
  durationsInBounds (validateSessionDurationInternal s)
                    (validateRestDurationInternal r) = true.
Proof.
  destruct (validateSessionDurationInternal_bounds s) as (a & -> & Ha).
  destruct (validateRestDurationInternal_bounds r) as (b & -> & Hb).
  unfold durationsInBounds. cbn [jle].
  repeat (apply andb_true_intro; split); apply Z.leb_le; lia.
Qed.

Lemma accepted_is_floored (hi : Z) (q : Q) :
  Qle_bool (inject_Z 1) q && Qle_bool q (inject_Z hi) = true ->
  (if qlt q (inject_Z 1) then Num 1
   else if qlt (inject_Z hi) q then Num hi
   else Num (Qfloor q))
  = Num (Qfloor q).
Proof.
  intro H. apply andb_prop in H. destruct H as [H1 H2].
  unfold qlt. rewrite H1, H2. reflexivity.
Qed.

(** X8: the durations that the configuration hands out. A finite number is
    cut to its integer part and clamped to the nearest bound of 1..120 for
    the session and 1..60 for the rest: the result is
    [max(1, min(bound, floor(value)))]. The infinities give the bound on
    their side; [NaN] and anything that is not a number give the default,
    25 and 5. A value that the public test accepts is handed out cut to
    its integer part, so unchanged exactly when it is an integer. *)
Theorem validated_duration_is_clamped (q : Q) :
  (validateSessionDurationInternal (SettingNumber q)
   = Num (Z.max 1 (Z.min 120 (Qfloor q)))
   /\ validateRestDurationInternal (SettingNumber q)
      = Num (Z.max 1 (Z.min 60 (Qfloor q))))
  /\ (validateSessionDurationInternal (SettingInfinity true) = Num 1
      /\ validateSessionDurationInternal (SettingInfinity false) = Num 120
      /\ validateRestDurationInternal (SettingInfinity true) = Num 1
      /\ validateRestDurationInternal (SettingInfinity false) = Num 60)
  /\ (validateSessionDurationInternal SettingNaN = Num 25
      /\ validateSessionDurationInternal SettingOther = Num 25
      /\ validateRestDurationInternal SettingNaN = Num 5
      /\ validateRestDurationInternal SettingOther = Num 5)
  /\ (validateSessionDuration (SettingNumber q) = true ->
      validateSessionDurationInternal (SettingNumber q) = Num (Qfloor q)
      /\ (inject_Z (Qfloor q) <= q)%Q /\ (q < inject_Z (Qfloor q + 1))%Q)
  /\ (validateRestDuration (SettingNumber q) = true ->
      validateRestDurationInternal (SettingNumber q) = Num (Qfloor q)
      /\ (inject_Z (Qfloor q) <= q)%Q /\ (q < inject_Z (Qfloor q + 1))%Q).
Proof.
  split; [split|].
  - apply (validate_finite 120 q). lia.
  - apply (validate_finite 60 q). lia.
  - split; [repeat split|]. split; [repeat split|]. split.
    + intro H. split; [now apply (accepted_is_floored 120 q)|].
      split; [apply Qfloor_le | apply Qlt_floor].
    + intro H. split; [now apply (accepted_is_floored 60 q)|].
      split; [apply Qfloor_le | apply Qlt_floor].
Qed.

(** Settings of 25.7 minutes for the session and 5.9 minutes for the rest:
    the public tests accept them, the session lasts 25 minutes and the
    rest 5. *)
Lemma validated_duration_is_clamped_witness :
  (validateSessionDurationInternal (SettingNumber (257 # 10)) = Num 25
   /\ (inject_Z 25 <= 257 # 10)%Q /\ (257 # 10 < inject_Z 26)%Q)
  /\ (validateRestDurationInternal (SettingNumber (59 # 10)) = Num 5
      /\ (inject_Z 5 <= 59 # 10)%Q /\ (59 # 10 < inject_Z 6)%Q).
Proof.
  split.
  - apply (proj1 (proj2 (proj2 (proj2 (validated_duration_is_clamped (257 # 10)))))).
    reflexivity.
  - apply (proj2 (proj2 (proj2 (proj2 (validated_duration_is_clamped (59 # 10)))))).
    reflexivity.
Defined.

Lemma hostOp_inBounds (e : HostEvent) : opInBounds (hostOp e) = true.
Proof.
  destruct e; try reflexivity. cbn. apply validated_durationsInBounds.
Qed.

(** X9: driven as the extension drives it, with the durations of the
    constructor and of every change of the configuration validated first,
    the engine has its session duration within 1..120 and its rest duration
    within 1..60 in every state, whatever the settings hold. *)
Theorem hosted_durations_in_bounds
    (sessionDuration restDuration : SettingValue) (events : list HostEvent) :
  contextInBounds (run (map hostOp events)
                       (initializeTimer sessionDuration restDuration)) = true.
Proof.
  apply run_contextInBounds.
  - apply validated_durationsInBounds.
  - induction events as [|e events IH]; [reflexivity|].
    cbn [map forallb]. rewrite hostOp_inBounds. exact IH.
Qed.

(** * Further properties of the persistence gateway *)

Lemma isTimerState_tag (v : JsValue) :
  isTimerState v = true -> exists phase : TimerState, v = JString (tag phase).
Proof.
  unfold isTimerState. cbn [existsb]. destruct v as [| | | |x| |]; try discriminate.
  cbn [isState tag]. intro H.
  destruct (String.eqb x "idle") eqn:E1;
    [apply String.eqb_eq in E1; exists IDLE; now rewrite E1|].
  destruct (String.eqb x "work_session") eqn:E2;
    [apply String.eqb_eq in E2; exists WORK_SESSION; now rewrite E2|].
  destruct (String.eqb x "rest_period") eqn:E3;
    [apply String.eqb_eq in E3; exists REST_PERIOD; now rewrite E3|].
  destruct (String.eqb x "paused") eqn:E4;
    [apply String.eqb_eq in E4; exists PAUSED; now rewrite E4|].
  discriminate H.
Qed.

Section RestoreAll.

Variable Date_parse : string -> JsNum.

(** X10: a valid record of a work session or a rest period whose countdown
    [remaining] is more than the seconds
    [elapsed = floor((now - lastActiveTime) / 1000)] since it was saved is
    restored in the same phase with [remaining - elapsed] seconds left,
    the stored durations and start time, and no [pausedAt]; the record is
    left in place. [elapsed] is not clamped: when the clock reads earlier
    than [lastActiveTime], it is negative and the countdown restored is
    longer than the one stored. *)
Theorem restoreState_survived
    (now : Z) (persistedState : JsValue) (phase : TimerState)
    (remaining last : Z) :
  isValidPersistedState Date_parse persistedState = true ->
  getProp "currentState" persistedState = JString (tag phase) ->
  phase = WORK_SESSION \/ phase = REST_PERIOD ->
  getProp "remainingTime" persistedState = JNumber (Num remaining) ->
  newDate Date_parse (getProp "lastActiveTime" persistedState) = Num last ->
  (now - last) / 1000 < remaining ->
  exists sd rd : JsNum,
    getProp "sessionDuration" persistedState = JNumber sd
    /\ getProp "restDuration" persistedState = JNumber rd
    /\ restoreState Date_parse now (Some persistedState)
       = (Some (mkContext phase (Num (remaining - (now - last) / 1000)) sd rd None
                  (optionalDate Date_parse
                     (getProp "sessionStartTime" persistedState))),
          Some persistedState).
Proof.
  intros Hv Hcs Hph Hrem Hlast Hlt.
  destruct (isValidPersistedState_checked _ _ Hv)
    as (_ & _ & (sd & Hsd & _) & (rd & Hrd & _)).
  exists sd, rd. repeat (split; [assumption|]).
  unfold restoreState.
  rewrite (isValidPersistedState_truthy _ _ Hv), Hv. cbn [negb].
  rewrite Hlast, Hcs, Hrem, Hsd, Hrd, !isState_tag, asTimerState_tag.
  cbn [asNumber jsub jfloordiv jmax jle].
  destruct (Z.leb_spec (Z.max 0 (remaining - (now - last) / 1000)) 0); [lia|].
  rewrite Z.max_r by lia.
  destruct Hph as [-> | ->]; reflexivity.
Qed.

(** The dates of a record that validation accepts: a [Date] can be built
    from [lastActiveTime] and, when it is truthy, from [sessionStartTime]. *)
Lemma isValidPersistedState_dates (v : JsValue) :
  isValidPersistedState Date_parse v = true ->
  newDateThrows (getProp "lastActiveTime" v) = false
  /\ (truthy (getProp "sessionStartTime" v) = true ->
      newDateThrows (getProp "sessionStartTime" v) = false).
Proof.
  unfold isValidPersistedState.
  repeat match goal with
         | |- (if ?b then false else _) = true -> _ =>
             destruct b eqn:?; [discriminate|]
         end.
  intros _. split; [reflexivity || assumption|]. intro Ht.
  match goal with
  | H : truthy _ && newDateThrows _ = false |- _ => rewrite Ht in H; exact H
  end.
Qed.

(** A record from whose [lastActiveTime], or truthy [sessionStartTime], no
    [Date] can be built is rejected. *)
Lemma isValidPersistedState_rejects_dates (v : JsValue) :
  newDateThrows (getProp "lastActiveTime" v) = true
  \/ (truthy (getProp "sessionStartTime" v) = true
      /\ newDateThrows (getProp "sessionStartTime" v) = true) ->
  isValidPersistedState Date_parse v = false.
Proof.
  intro H. destruct (isValidPersistedState Date_parse v) eqn:Hv; [|reflexivity].
  destruct (isValidPersistedState_dates v Hv) as [H1 H2].
  destruct H as [H | [Ht H]]; [congruence|]. rewrite (H2 Ht) in H. discriminate H.
Qed.

(** X11: [restoreState] returns [null] exactly when there is no record or
    the record does not pass validation. When it returns a state, the
    record is left as it is and the state has the durations of the record,
    whichever way it was reconciled. *)
Theorem restoreState_null_iff (now : Z) (st : Store) :
  (fst (restoreState Date_parse now st) = None
   <-> match st with
       | None => True
       | Some v => isValidPersistedState Date_parse v = false
       end)
  /\ (forall (v : JsValue) (c : TimerContext),
        st = Some v ->
        fst (restoreState Date_parse now st) = Some c ->
        snd (restoreState Date_parse now st) = st
        /\ JNumber (sessionDuration c) = getProp "sessionDuration" v
        /\ JNumber (restDuration c) = getProp "restDuration" v).
Proof.
  destruct st as [v|]; [|split; [split; auto | intros v c H; discriminate H]].
  destruct (isValidPersistedState Date_parse v) eqn:Hv.
  - destruct (isValidPersistedState_checked _ _ Hv)
      as (_ & _ & (sd & Hsd & _) & (rd & Hrd & _)).
    unfold restoreState.
    rewrite (isValidPersistedState_truthy _ _ Hv), Hv. cbn [negb].
    unfold createTimerContextFromPersisted, handleExpiredSession, createIdleContext.
    rewrite Hsd, Hrd. cbn [asNumber].
    repeat match goal with
           | |- context [if ?b then _ else _] => destruct b
           end;
      cbn [fst snd];
      (split; [split; intro H; discriminate H
              | intros v' c [= <-] [= <-]; cbn; auto]).
  - split.
    + split; [reflexivity|]. intros _.
      apply (restoreState_invalid Date_parse now v Hv).
    + intros v' c _ H.
      rewrite (proj1 (restoreState_invalid Date_parse now v Hv)) in H. discriminate H.
Qed.

(** X12: from a valid record with an integer countdown, rest duration and
    time of the last save, the countdown restored is an integer that is not
    negative, and it is positive whenever the phase restored is
    [WORK_SESSION] or [REST_PERIOD]: a session that [restoreState] returns
    as running has time left. *)
Theorem restored_running_has_time_left
    (now : Z) (persistedState : JsValue) (remaining rest last : Z)
    (c : TimerContext) :
  isValidPersistedState Date_parse persistedState = true ->
  getProp "remainingTime" persistedState = JNumber (Num remaining) ->
  getProp "restDuration" persistedState = JNumber (Num rest) ->
  newDate Date_parse (getProp "lastActiveTime" persistedState) = Num last ->
  fst (restoreState Date_parse now (Some persistedState)) = Some c ->
  exists r : Z,
    remainingTime c = Num r
    /\ 0 <= r
    /\ (currentState c = WORK_SESSION \/ currentState c = REST_PERIOD -> 0 < r).
Proof.
  intros Hv Hrem Hrest Hlast.
  destruct (isValidPersistedState_checked _ _ Hv)
    as (Hts & (rem' & Hrem' & Hnonneg) & _ & _).
  rewrite Hrem in Hrem'. injection Hrem' as <-.
  cbn [jlt] in Hnonneg. apply Z.ltb_ge in Hnonneg.
  destruct (isTimerState_tag _ Hts) as (phase & Hcs).
  unfold restoreState.
  rewrite (isValidPersistedState_truthy _ _ Hv), Hv. cbn [negb].
  unfold createTimerContextFromPersisted, handleExpiredSession, createIdleContext.
  rewrite Hlast, Hcs, Hrem, Hrest, !isState_tag, asTimerState_tag.
  cbn [asNumber jsub jfloordiv jmax jle jge jmul].
  destruct phase; cbn [TimerState_eqb orb fst].
  - intros [= <-]. exists remaining. cbn. repeat split; auto.
    intros [H | H]; discriminate H.
  - destruct (Z.leb_spec (Z.max 0 (remaining - (now - last) / 1000)) 0).
    + destruct (Z.leb_spec (rest * 60) ((now - last) / 1000 - remaining)).
      * intros [= <-]. exists 0. cbn. repeat split; try lia.
        intros [H' | H']; discriminate H'.
      * intros [= <-]. eexists. cbn. split; [reflexivity|]. split; lia.
    + intros [= <-]. eexists. cbn. split; [reflexivity|]. split; lia.
  - destruct (Z.leb_spec (Z.max 0 (remaining - (now - last) / 1000)) 0).
    + intros [= <-]. exists 0. cbn. repeat split; try lia.
      intros [H' | H']; discriminate H'.
    + intros [= <-]. eexists. cbn. split; [reflexivity|]. split; lia.
  - intros [= <-]. exists remaining. cbn. repeat split; auto.
    intros [H | H]; discriminate H.
Qed.

End RestoreAll.

(** ** The statistics *)

Lemma lookup_assign_same (k : string) (x : JsValue) (props : list (string * JsValue)) :
  lookup k (assign k x props) = Some x.
Proof.
  induction props as [|[k0 y] props IH]; cbn.
  - now rewrite String.eqb_refl.
  - destruct (String.eqb k0 k) eqn:E; cbn; rewrite E; auto.
Qed.

Lemma lookup_assign_other (k k' : string) (x : JsValue)
    (props : list (string * JsValue)) :
  String.eqb k k' = false -> lookup k' (assign k x props) = lookup k' props.
Proof.
  intro Hk. induction props as [|[k0 y] props IH]; cbn.
  - now rewrite Hk.
  - destruct (String.eqb k0 k) eqn:E; cbn.
    + apply String.eqb_eq in E. subst k0. now rewrite Hk.
    + destruct (String.eqb k0 k'); auto.
Qed.

Lemma getProp_setProp_other (k k' : string) (x v : JsValue) :
  String.eqb k k' = false -> getProp k' (setProp k x v) = getProp k' v.
Proof.
  intro Hk. destruct v; try reflexivity. cbn. now rewrite lookup_assign_other.
Qed.

Lemma hasProp_setProp (k k' : string) (x : JsValue) (props : list (string * JsValue)) :
  hasProp k' (JObject props) = true ->
  hasProp k' (setProp k x (JObject props)) = true.
Proof.
  cbn. destruct (String.eqb k k') eqn:E.
  - apply String.eqb_eq in E. subst k'. now rewrite lookup_assign_same.
  - now rewrite lookup_assign_other.
Qed.

Section StatisticsProperties.

Variable Date_parse : string -> JsNum.

Lemma isValidPersistedState_object (v : JsValue) :
  isValidPersistedState Date_parse v = true ->
  exists props, v = JObject props.
Proof.
  unfold isValidPersistedState.
  destruct v; eauto; cbn [isObjectType negb]; rewrite ?orb_true_r;
    intro H; cbn in H; discriminate H.
Qed.

(** Assigning to a property whose value validation does not read keeps a
    valid record valid. *)
Lemma isValidPersistedState_setProp (k : string) (x v : JsValue) :
  String.eqb k "currentState" = false ->
  String.eqb k "remainingTime" = false ->
  String.eqb k "sessionDuration" = false ->
  String.eqb k "restDuration" = false ->
  String.eqb k "lastActiveTime" = false ->
  String.eqb k "sessionStartTime" = false ->
  isValidPersistedState Date_parse v = true ->
  isValidPersistedState Date_parse (setProp k x v) = true.
Proof.
  intros K1 K2 K3 K4 K5 K6 Hv.
  destruct (isValidPersistedState_object v Hv) as (props & ->).
  unfold isValidPersistedState in *.
  rewrite !(getProp_setProp_other k _ x (JObject props)) by assumption.
  change (truthy (setProp k x (JObject props))) with true.
  change (isObjectType (setProp k x (JObject props))) with true.
  cbn [truthy isObjectType negb orb] in *.
  destruct (forallb (fun prop => hasProp prop (JObject props)) requiredProps) eqn:F;
    [|discriminate Hv].
  assert (F' : forallb (fun prop => hasProp prop (setProp k x (JObject props)))
                 requiredProps = true).
  { rewrite forallb_forall in *. intros prop Hin.
    apply hasProp_setProp. now apply F. }
  rewrite F'. exact Hv.
Qed.

Lemma saveState_valid_numbers (now : Z) (c : TimerContext)
    (sessionCount totalWorkTime : JsNum) :
  isValidPersistedState Date_parse
    (JObject
       [("currentState", JString (tag (currentState c)));
        ("remainingTime", JNumber (remainingTime c));
        ("sessionStartTime", dateValue (sessionStartTime c));
        ("lastActiveTime", JDate (Num now));
        ("sessionCount", JNumber sessionCount);
        ("totalWorkTime", JNumber totalWorkTime);
        ("sessionDuration", JNumber (sessionDuration c));
        ("restDuration", JNumber (restDuration c))])
  = savedContextValid c.
Proof.
  destruct c as [phase remj sdj rdj p sst].
  unfold isValidPersistedState, savedContextValid.
  cbn [currentState remainingTime sessionDuration restDuration sessionStartTime].
  cbn [truthy isObjectType negb orb requiredProps forallb hasProp lookup
       String.eqb Ascii.eqb Bool.eqb andb getProp isNumberType asNumber].
  assert (H1 : isTimerState (JString (tag phase)) = true)
    by (destruct phase; reflexivity).
  rewrite H1. cbn [negb].
  destruct (jlt remj (Num 0)); [reflexivity|].
  destruct (jlt sdj (Num 1)); [reflexivity|].
  destruct (jgt sdj (Num 120)); [reflexivity|].
  destruct (jlt rdj (Num 1)); [reflexivity|].
  destruct (jgt rdj (Num 60)); [reflexivity|].
  destruct sst; reflexivity.
Qed.

Lemma saveState_valid (now : Z) (phase : TimerState) (rem sd rd : Z)
    (sst : option Date) (sessionCount totalWorkTime : JsNum) :
  isValidPersistedState Date_parse
    (JObject
       [("currentState", JString (tag phase));
        ("remainingTime", JNumber (Num rem));
        ("sessionStartTime", dateValue sst);
        ("lastActiveTime", JDate (Num now));
        ("sessionCount", JNumber sessionCount);
        ("totalWorkTime", JNumber totalWorkTime);
        ("sessionDuration", JNumber (Num sd));
        ("restDuration", JNumber (Num rd))])
  = (0 <=? rem) && durationsInBounds (Num sd) (Num rd).
Proof.
  rewrite (saveState_valid_numbers now
             (mkContext phase (Num rem) (Num sd) (Num rd) None sst)).
  unfold savedContextValid, durationsInBounds.
  cbn [remainingTime sessionDuration restDuration jlt jgt jle].
  repeat match goal with
         | |- context [?a <? ?b] => destruct (Z.ltb_spec a b)
         | |- context [?a <=? ?b] => destruct (Z.leb_spec a b)
         end;
    cbn [andb orb negb]; try reflexivity; lia.
Qed.

(** X13: [getStatistics] after [saveState] gives the two counters that were
    saved exactly when the context saved passes the tests of validation:
    its countdown is not below 0, its session duration neither below 1 nor
    above 120 and its rest duration neither below 1 nor above 60. The
    tests are comparisons, so a countdown or a duration that is [NaN]
    passes them and the counters are returned. When a test fails, the
    counters saved with the context are read as 0 and 0. Without a record
    they are 0 and 0 as well. *)
Theorem getStatistics_after_saveState
    (now : Z) (c : TimerContext) (sessionCount totalWorkTime : JsNum)
    (st : Store) :
  getStatistics Date_parse (saveState now c sessionCount totalWorkTime st)
  = (if savedContextValid c
     then (JNumber sessionCount, JNumber totalWorkTime)
     else (JNumber (Num 0), JNumber (Num 0)))
  /\ getStatistics Date_parse (clearState (saveState now c sessionCount totalWorkTime st))
     = (JNumber (Num 0), JNumber (Num 0)).
Proof.
  split; [|reflexivity].
  unfold getStatistics, saveState.
  rewrite saveState_valid_numbers. cbn [truthy negb orb].
  destruct (savedContextValid c); reflexivity.
Qed.

(** X14: on a valid record [updateStatistics] sets the two counters, which
    [getStatistics] then returns, and disturbs nothing that [restoreState]
    reads: the state restored afterwards is the one restored before. With
    no record, or one that does not pass validation, it changes nothing. *)
Theorem updateStatistics_sets_counters_only
    (now : Z) (sessionCount totalWorkTime : JsNum) (st : Store) :
  (forall v : JsValue,
     st = Some v -> isValidPersistedState Date_parse v = true ->
     getStatistics Date_parse (updateStatistics Date_parse sessionCount totalWorkTime st)
     = (JNumber sessionCount, JNumber totalWorkTime)
     /\ fst (restoreState Date_parse now
               (updateStatistics Date_parse sessionCount totalWorkTime st))
        = fst (restoreState Date_parse now st))
  /\ (match st with
      | None => True
      | Some v => isValidPersistedState Date_parse v = false
      end ->
      updateStatistics Date_parse sessionCount totalWorkTime st = st).
Proof.
  split.
  - intros v -> Hv.
    pose proof (isValidPersistedState_truthy _ _ Hv) as Ht.
    assert (Hv' : isValidPersistedState Date_parse
                    (setProp "totalWorkTime" (JNumber totalWorkTime)
                       (setProp "sessionCount" (JNumber sessionCount) v)) = true).
    { apply isValidPersistedState_setProp; try reflexivity.
      apply isValidPersistedState_setProp; try reflexivity. exact Hv. }
    pose proof (isValidPersistedState_truthy _ _ Hv') as Ht'.
    unfold updateStatistics. rewrite Ht, Hv. cbn [andb]. split.
    + unfold getStatistics. rewrite Ht', Hv'. cbn [negb orb].
      destruct (isValidPersistedState_object v Hv) as (props & ->).
      cbn [setProp getProp].
      rewrite (lookup_assign_other "totalWorkTime" "sessionCount") by reflexivity.
      now rewrite !lookup_assign_same.
    + unfold restoreState. rewrite Ht, Ht', Hv, Hv'. cbn [negb].
      unfold createTimerContextFromPersisted, handleExpiredSession.
      repeat rewrite (getProp_setProp_other "totalWorkTime") by reflexivity.
      repeat rewrite (getProp_setProp_other "sessionCount") by reflexivity.
      repeat match goal with
             | |- context [if ?b then _ else _] => destruct b
             end; reflexivity.
  - destruct st as [v|]; [|reflexivity]. intro Hv.
    unfold updateStatistics. rewrite Hv. now rewrite andb_false_r.
Qed.

End StatisticsProperties.

(** ** The further properties at the records of the examples *)

(** The record of the test suite, restored five minutes after it was
    saved: 1200 of its 1500 seconds are left. *)
Lemma restoreState_survived_witness :
  exists sd rd : JsNum,
    getProp "sessionDuration" storedWork = JNumber sd
    /\ getProp "restDuration" storedWork = JNumber rd
    /\ restoreState parseNothing 300000 (Some storedWork)
       = (Some (mkContext WORK_SESSION (Num (1500 - (300000 - 0) / 1000)) sd rd None
                  (optionalDate parseNothing (getProp "sessionStartTime" storedWork))),
          Some storedWork).
Proof.
  apply (restoreState_survived parseNothing 300000 storedWork WORK_SESSION 1500 0).
  - reflexivity.
  - reflexivity.
  - left. reflexivity.
  - reflexivity.
  - reflexivity.
  - vm_compute. reflexivity.
Defined.

(** A text in place of a record, a record with an object from which no
    [Date] can be built as [lastActiveTime], and the record of the test
    suite with the state restored from it. *)
Lemma restoreState_null_iff_witness :
  fst (restoreState parseNothing 300000 (Some (JString "corrupt"))) = None
  /\ fst (restoreState parseNothing 300000 (Some storedIdleObjectStamp)) = None
  /\ snd (restoreState parseNothing 300000 (Some storedWork)) = Some storedWork
  /\ JNumber (Num 25) = getProp "sessionDuration" storedWork
  /\ JNumber (Num 5) = getProp "restDuration" storedWork.
Proof.
  split; [|split].
  - apply (proj2 (proj1 (restoreState_null_iff parseNothing 300000
                           (Some (JString "corrupt"))))).
    reflexivity.
  - apply (proj2 (proj1 (restoreState_null_iff parseNothing 300000
                           (Some storedIdleObjectStamp)))).
    reflexivity.
  - apply (proj2 (restoreState_null_iff parseNothing 300000 (Some storedWork))
             storedWork
             (mkContext WORK_SESSION (Num 1200) (Num 25) (Num 5) None (Some (Num 0))));
      reflexivity.
Defined.

(** The same record restored 27 minutes after it was saved: a rest period
    with time left. *)
Lemma restored_running_has_time_left_witness :
  exists r : Z,
    remainingTime
      (mkContext REST_PERIOD (Num 180) (Num 25) (Num 5) None (Some (Num 1500000)))
    = Num r
    /\ 0 <= r
    /\ (currentState
          (mkContext REST_PERIOD (Num 180) (Num 25) (Num 5) None (Some (Num 1500000)))
        = WORK_SESSION
        \/ currentState
             (mkContext REST_PERIOD (Num 180) (Num 25) (Num 5) None (Some (Num 1500000)))
           = REST_PERIOD
        -> 0 < r).
Proof.
  apply (restored_running_has_time_left parseNothing 1620000 storedWork 1500 5 0
           (mkContext REST_PERIOD (Num 180) (Num 25) (Num 5) None (Some (Num 1500000))));
    reflexivity.
Defined.

(** A running 25-minute session saved with the counters 3 and 4500; then
    a context whose countdown is [NaN] and one whose session duration is
    150 minutes. *)
Lemma getStatistics_after_saveState_witness :
  getStatistics parseNothing
    (saveState 2000 (context working25) (Num 3) (Num 4500) None)
  = (JNumber (Num 3), JNumber (Num 4500))
  /\ getStatistics parseNothing
       (saveState 2000 (mkContext WORK_SESSION NaN (Num 25) (Num 5) None None)
          (Num 3) (Num 4500) None)
     = (JNumber (Num 3), JNumber (Num 4500))
  /\ getStatistics parseNothing
       (saveState 2000 (mkContext IDLE (Num 0) (Num 150) (Num 5) None None)
          (Num 3) (Num 4500) None)
     = (JNumber (Num 0), JNumber (Num 0)).
Proof.
  split; [|split].
  - apply (proj1 (getStatistics_after_saveState parseNothing 2000 (context working25)
                    (Num 3) (Num 4500) None)).
  - apply (proj1 (getStatistics_after_saveState parseNothing 2000
                    (mkContext WORK_SESSION NaN (Num 25) (Num 5) None None)
                    (Num 3) (Num 4500) None)).
  - apply (proj1 (getStatistics_after_saveState parseNothing 2000
                    (mkContext IDLE (Num 0) (Num 150) (Num 5) None None)
                    (Num 3) (Num 4500) None)).
Defined.

(** The record of the test suite, its counters set to 3 and 4500; no
    record; and a record that is rejected for its [lastActiveTime], which
    is left with the counters it has. *)
Lemma updateStatistics_sets_counters_only_witness :
  (getStatistics parseNothing
     (updateStatistics parseNothing (Num 3) (Num 4500) (Some storedWork))
   = (JNumber (Num 3), JNumber (Num 4500))
   /\ fst (restoreState parseNothing 300000
             (updateStatistics parseNothing (Num 3) (Num 4500) (Some storedWork)))
      = fst (restoreState parseNothing 300000 (Some storedWork)))
  /\ updateStatistics parseNothing (Num 3) (Num 4500) None = None
  /\ updateStatistics parseNothing (Num 3) (Num 4500) (Some storedIdleObjectStamp)
     = Some storedIdleObjectStamp.
Proof.
  split; [|split].
  - apply (proj1 (updateStatistics_sets_counters_only parseNothing 300000
                    (Num 3) (Num 4500) (Some storedWork)) storedWork);
      reflexivity.
  - apply (proj2 (updateStatistics_sets_counters_only parseNothing 300000
                    (Num 3) (Num 4500) None)).
    exact I.
  - apply (proj2 (updateStatistics_sets_counters_only parseNothing 300000
                    (Num 3) (Num 4500) (Some storedIdleObjectStamp))).
    reflexivity.
Defined.

(** * The text of the countdown *)









(** * What the listeners have seen last *)

Lemma emitStateChange_showsCurrent (t : TimerManager) :
  showsCurrent (emitStateChange false t).
Proof.
  unfold showsCurrent, emitStateChange. cbn [emitted context].
  rewrite rev_app_distr. reflexivity.
Qed.

Lemma step_showsCurrent (t : TimerManager) (o : Op) :
  showsCurrent t -> showsCurrent (step t o).
Proof.
  intro H. destruct o as [now|now|now| | |s' d'|]; cbn [step].
  - apply emitStateChange_showsCurrent.
  - apply emitStateChange_showsCurrent.
  - unfold pause. destruct (currentState (context t));
      first [exact H | apply emitStateChange_showsCurrent].
  - unfold resume. destruct (currentState (context t)); try exact H.
    destruct (pausedAt (context t)); [|exact H].
    apply emitStateChange_showsCurrent.
  - apply emitStateChange_showsCurrent.
  - unfold updateDurations. cbv zeta.
    destruct t as [[st rem sd rd p sst] i l].
    cbn [context currentState setContext].
    destruct st;
      repeat match goal with
             | |- showsCurrent (if ?b then _ else _) => destruct b
             end;
      first [ exact H
            | apply emitStateChange_showsCurrent
            | unfold handleTimerCompletion; cbv zeta;
              apply emitStateChange_showsCurrent ].
  - destruct (intervalId t); [|exact H].
    unfold tick. cbv zeta. destruct (jgt (remainingTime (context t)) (Num 0));
      [|unfold handleTimerCompletion; cbv zeta]; apply emitStateChange_showsCurrent.
Qed.

(** X16: in every state that the operations reach from a new engine, the
    last notification that the engine has sent is a state change, not
    marked as a transition, that carries the current phase and the current
    countdown; as long as nothing was sent the engine is idle with the
    countdown at 0. A listener that shows the last state change shows the
    engine as it is. *)
Theorem listeners_see_current_state (s r : JsNum) (ops : list Op) :
  showsCurrent (run ops (newTimerManager s r)).
Proof.
  assert (H : forall t, showsCurrent t -> showsCurrent (run ops t)).
  { induction ops as [|o ops IH]; intros t Ht; simpl; auto.
    apply IH. now apply step_showsCurrent. }
  apply H. split; reflexivity.
Qed.

(** * What the host saves *)

Lemma durationsInBounds_Num (s r : JsNum) :
  durationsInBounds s r = true ->
  exists a b : Z, s = Num a /\ r = Num b /\ 1 <= a <= 120 /\ 1 <= b <= 60.
Proof.
  unfold durationsInBounds. destruct s as [a|], r as [b|]; cbn [jle];
    rewrite ?andb_false_r; try discriminate.
  intro H. repeat (apply andb_prop in H; destruct H as [H ?]).
  exists a, b. repeat split; auto; apply Z.leb_le; assumption.
Qed.

Lemma opInBounds_nonNegative (o : Op) :
  opInBounds o = true -> opNonNegative o = true.
Proof.
  destruct o; try reflexivity. cbn. intro H.
  destruct (durationsInBounds_Num _ _ H) as (a & b & -> & -> & Ha & Hb).
  cbn. apply andb_true_intro. split; apply Z.leb_le; lia.
Qed.

Section HostedPersistence.

Variable Date_parse : string -> JsNum.

Lemma restoreState_valid_some (now : Z) (v : JsValue) :
  isValidPersistedState Date_parse v = true ->
  exists c : TimerContext, fst (restoreState Date_parse now (Some v)) = Some c.
Proof.
  intro Hv. unfold restoreState.
  rewrite (isValidPersistedState_truthy _ _ Hv), Hv. cbn [negb].
  repeat match goal with
         | |- context [if ?b then _ else _] => destruct b
         end; eexists; reflexivity.
Qed.

(** X17: whatever state the engine is in, what [saveState] writes of it is
    a record that passes validation, provided the constructor and every
    call of [updateDurations] were given durations within the bounds: at
    any later time [restoreState] returns a state from it, not [null], and
    [getStatistics] returns the counters saved with it. *)
Theorem saved_engine_state_is_valid
    (now later : Z) (s d : JsNum) (ops : list Op)
    (sessionCount totalWorkTime : JsNum) (st : Store) :
  durationsInBounds s d = true ->
  forallb opInBounds ops = true ->
  (exists c : TimerContext,
     fst (restoreState Date_parse later
            (saveState now (context (run ops (newTimerManager s d)))
               sessionCount totalWorkTime st)) = Some c)
  /\ getStatistics Date_parse
       (saveState now (context (run ops (newTimerManager s d)))
          sessionCount totalWorkTime st)
     = (JNumber sessionCount, JNumber totalWorkTime).
Proof.
  intros Hb Hops.
  destruct (durationsInBounds_Num _ _ Hb) as (a & b & -> & -> & Ha & Hbb).
  assert (Hnn : forallb opNonNegative ops = true).
  { rewrite forallb_forall in *. intros o Hin.
    apply opInBounds_nonNegative. now apply Hops. }
  pose proof (run_countsDown ops _ (new_countsDown a b ltac:(lia) ltac:(lia)) Hnn)
    as (r & sd & rd & Hr & Hsd & Hrd & Hr0 & _).
  pose proof (run_contextInBounds ops (newTimerManager (Num a) (Num b)) Hb Hops)
    as Hin.
  unfold contextInBounds in Hin. rewrite Hsd, Hrd in Hin.
  destruct (context (run ops (newTimerManager (Num a) (Num b))))
    as [phase remj sdj rdj p sst].
  cbn [remainingTime sessionDuration restDuration] in Hr, Hsd, Hrd. subst.
  assert (Hv : isValidPersistedState Date_parse
            (JObject
               [("currentState", JString (tag phase));
                ("remainingTime", JNumber (Num r));
                ("sessionStartTime", dateValue sst);
                ("lastActiveTime", JDate (Num now));
                ("sessionCount", JNumber sessionCount);
                ("totalWorkTime", JNumber totalWorkTime);
                ("sessionDuration", JNumber (Num sd));
                ("restDuration", JNumber (Num rd))]) = true).
  { rewrite saveState_valid, Hin.
    apply andb_true_intro. split; [apply Z.leb_le; lia | reflexivity]. }
  unfold saveState.
  cbn [currentState remainingTime sessionDuration restDuration sessionStartTime].
  split.
  - now apply restoreState_valid_some.
  - unfold getStatistics. rewrite Hv. reflexivity.
Qed.

End HostedPersistence.

(** A session started, shortened while it runs, and paused; saved at time
    5000 and read at time 9000. *)
Lemma saved_engine_state_is_valid_witness :
  (exists c : TimerContext,
     fst (restoreState parseNothing 9000
            (saveState 5000
               (context (run [OpStartSession 0; OpInterval;
                              OpUpdateDurations (Num 10) (Num 2); OpPause 4000]
                             (newTimerManager (Num 25) (Num 5))))
               (Num 1) (Num 1500) None)) = Some c)
  /\ getStatistics parseNothing
       (saveState 5000
          (context (run [OpStartSession 0; OpInterval;
                         OpUpdateDurations (Num 10) (Num 2); OpPause 4000]
                        (newTimerManager (Num 25) (Num 5))))
          (Num 1) (Num 1500) None)
     = (JNumber (Num 1), JNumber (Num 1500)).
Proof.
  apply (saved_engine_state_is_valid parseNothing 5000 9000 (Num 25) (Num 5)
           [OpStartSession 0; OpInterval; OpUpdateDurations (Num 10) (Num 2);
            OpPause 4000]
           (Num 1) (Num 1500) None); reflexivity.
Defined.
